(** * Detection service: session registry, bounded queue, worker, detector

    A shallow embedding of [detection-service/yolo_detector.py] and
    [detection-service/detection_server.py].

    - Python floats are kept abstract behind the interface [PyFloat], with
      the laws a proof needs in [PyFloatLaws]; the rationals are one
      instance and serve to run the model.
    - The libraries the service calls (base64, PIL, OpenCV, ultralytics) are
      the fields of [yolo_detector.Runtime]; [time.time()] readings are
      arguments of the functions that take them.
    - Module-level globals of the server ([detector], [detection_queue],
      [active_sessions]) and the worker thread's locals form [State]; every
      handler is a function [State -> State * list Obs].
    - [active_sessions] is a Python [dict]: keys are unique and iteration
      follows insertion order, which [disconnect] depends on, hence the
      insertion-ordered association list of module [Py].
    - A handler or a worker step runs as one transition; what it sends and
      what it does to the queue is the list of [Obs] it returns.
    - Console output ([print]) is not modelled, nor are the REST routes,
      which read the globals and write none. *)

From Stdlib Require Import ZArith QArith List String Ascii Bool Lia DecimalString.
Import ListNotations.
Close Scope Q_scope.
Local Open Scope string_scope.
Local Open Scope list_scope.
Local Open Scope Z_scope.

Set Implicit Arguments.

(* ------------------------------------------------------------------ *)
(** * Floats *)

(** What the service does with floats: literals, the [int -> float]
    conversion of mixed arithmetic, [-], [/], and the comparisons. *)
Class PyFloat (F : Type) := {
  flit : Q -> F;
  of_int : Z -> F;
  fsub : F -> F -> F;
  fdiv : F -> F -> F;
  fle : F -> F -> Prop;
  fgtb : F -> F -> bool
}.

(** The laws used of them.  Any correctly rounded arithmetic has these on
    finite values: division by a positive integer is monotone, [0 / w] is
    not negative and [w / w] is not above one. *)
Class PyFloatLaws (F : Type) `{PyFloat F} : Prop := {
  fle_trans : forall a b c : F, fle a b -> fle b c -> fle a c;
  fdiv_mono : forall (a b : F) (w : Z), 0 < w -> fle a b ->
                fle (fdiv a (of_int w)) (fdiv b (of_int w));
  fdiv_zero : forall w : Z, 0 < w ->
                fle (flit 0%Q) (fdiv (flit 0%Q) (of_int w));
  fdiv_self : forall w : Z, 0 < w ->
                fle (fdiv (of_int w) (of_int w)) (flit 1%Q)
}.
Arguments PyFloatLaws F {_}.

(** The rationals, to run the model on. *)
#[export] Instance QFloat : PyFloat Q := {
  flit := fun q => q;
  of_int := inject_Z;
  fsub := Qminus;
  fdiv := Qdiv;
  fle := Qle;
  fgtb := fun a b => negb (Qle_bool a b)
}.

(* ------------------------------------------------------------------ *)
(** * Python values the service relies on *)

Module Py.

(** Exceptions that the modelled code can meet. *)
Inductive exn :=
| Empty                       (* queue.Empty *)
| Full                        (* queue.Full *)
| ValueError (msg : string)
| IndexError
| LibraryError (msg : string) (* raised inside base64, PIL, OpenCV or the model *).

Inductive result (A : Type) :=
| Ok (a : A)
| Raise (e : exn).
Arguments Ok {A} a.
Arguments Raise {A} e.

Definition bind {A B} (r : result A) (k : A -> result B) : result B :=
  match r with
  | Ok a => k a
  | Raise e => Raise e
  end.

(** [not s] for a value that is a string or [None]. *)
Definition falsy (s : option string) : bool :=
  match s with
  | None => true
  | Some EmptyString => true
  | Some _ => false
  end.

(** [s.split(sep)] for a one-character separator. *)
Fixpoint split (sep : ascii) (s : string) : list string :=
  match s with
  | EmptyString => [EmptyString]
  | String c r =>
      if Ascii.eqb c sep then EmptyString :: split sep r
      else match split sep r with
           | h :: t => String c h :: t
           | [] => [String c EmptyString]
           end
  end.

(** [l[i]] with Python's negative indices. *)
Definition getitem {A} (l : list A) (i : Z) : result A :=
  let n := Z.of_nat (List.length l) in
  let j := if i <? 0 then n + i else i in
  if (j <? 0) || (n <=? j) then Raise IndexError
  else match nth_error l (Z.to_nat j) with
       | Some a => Ok a
       | None => Raise IndexError
       end.

(** [str(i)] for an [int]. *)
Definition str_of_int (i : Z) : string := NilZero.string_of_int (Z.to_int i).

(** ** [dict] with string keys, in insertion order *)
Section Dict.
Variable V : Type.

Definition dict := list (string * V).

(** [d.get(k)] / [d[k]] *)
Fixpoint get (k : string) (d : dict) : option V :=
  match d with
  | [] => None
  | (k', v) :: d' => if String.eqb k k' then Some v else get k d'
  end.

(** [k in d] *)
Definition mem (k : string) (d : dict) : bool :=
  match get k d with Some _ => true | None => false end.

(** [d[k] = v]: an existing key keeps its place, a new one goes last. *)
Fixpoint set (k : string) (v : V) (d : dict) : dict :=
  match d with
  | [] => [(k, v)]
  | (k', v') :: d' =>
      if String.eqb k k' then (k', v) :: d' else (k', v') :: set k v d'
  end.

(** [del d[k]] *)
Fixpoint del (k : string) (d : dict) : dict :=
  match d with
  | [] => []
  | (k', v') :: d' => if String.eqb k k' then d' else (k', v') :: del k d'
  end.

Definition keys (d : dict) : list string := map fst d.

End Dict.

End Py.

Notation "x <- r ;; k" := (Py.bind r (fun x => k))
  (at level 61, r at next level, right associativity).

(* ------------------------------------------------------------------ *)
(** * yolo_detector.py *)

Module yolo_detector.

(** A PIL image; the detector reads its [size] only. *)
Record Image := { size : Z * Z; content : string }.

(** A numpy pixel array. *)
Record ndarray := { shape : list Z; buffer : string }.

(** The three kinds of argument [detect_objects] tells apart. *)
Inductive image_arg :=
| Str (s : string)
| Array (a : ndarray)
| Pil (im : Image).

Section Detector.
Context {F : Type} `{PyFloat F}.

(** Row [i] of [results[0].boxes]: [xyxy[i]], [conf[i]], [int(cls[i])]. *)
Record Box := { xyxy : F * F * F * F; conf : F; cls : Z }.

(** One element of what the model call returns. *)
Record Results := { boxes : option (list Box) }.

(** The library calls made by the detector. *)
Record Runtime := {
  b64decode : string -> Py.result string;
  Image_open : string -> Py.result Image;
  Image_fromarray : ndarray -> Py.result Image;
  cvtColor_BGR2RGB : ndarray -> Py.result ndarray;
  resize_LANCZOS : Image -> Z * Z -> Py.result Image;
  model : Image -> F -> Py.result (list Results)
}.

Record BBox := {
  x1 : F; y1 : F; x2 : F; y2 : F; width : F; height : F
}.

Record Detection := {
  class_id : Z;
  class_name : string;
  confidence : F;
  bbox : BBox
}.

Record DetectionResult := {
  detections : list Detection;
  processing_time : F;
  fps : F;
  image_size : Z * Z;
  detection_count : Z
}.

Record YOLODetector := {
  model_path : string;
  conf_threshold : F;
  target_size : Z * Z;
  target_fps : Z;
  frame_interval : F;
  class_names : list string
}.

Definition COCO : list string :=
  [ "person"; "bicycle"; "car"; "motorcycle"; "airplane"; "bus"; "train"; "truck";
    "boat"; "traffic light"; "fire hydrant"; "stop sign"; "parking meter"; "bench";
    "bird"; "cat"; "dog"; "horse"; "sheep"; "cow"; "elephant"; "bear"; "zebra";
    "giraffe"; "backpack"; "umbrella"; "handbag"; "tie"; "suitcase"; "frisbee";
    "skis"; "snowboard"; "sports ball"; "kite"; "baseball bat"; "baseball glove";
    "skateboard"; "surfboard"; "tennis racket"; "bottle"; "wine glass"; "cup";
    "fork"; "knife"; "spoon"; "bowl"; "banana"; "apple"; "sandwich"; "orange";
    "broccoli"; "carrot"; "hot dog"; "pizza"; "donut"; "cake"; "chair"; "couch";
    "potted plant"; "bed"; "dining table"; "toilet"; "tv"; "laptop"; "mouse";
    "remote"; "keyboard"; "cell phone"; "microwave"; "oven"; "toaster"; "sink";
    "refrigerator"; "book"; "clock"; "vase"; "scissors"; "teddy bear"; "hair drier";
    "toothbrush" ].

(** [__init__], apart from loading the weights. *)
Definition init (model_path : string) (conf_threshold : F)
    (target_size : Z * Z) (target_fps : Z) : YOLODetector :=
  {| model_path := model_path;
     conf_threshold := conf_threshold;
     target_size := target_size;
     target_fps := target_fps;
     frame_interval := fdiv (flit 1%Q) (of_int target_fps);
     class_names := COCO |}.

Variable rt : Runtime.

Definition preprocess_image (self : YOLODetector) (image : Image + ndarray)
    : Py.result Image :=
  image <- match image with
           | inr a =>
               a <- match shape a with
                    | [_; _; 3] => cvtColor_BGR2RGB rt a
                    | _ => Py.Ok a
                    end ;;
               Image_fromarray rt a
           | inl im => Py.Ok im
           end ;;
  resize_LANCZOS rt image (target_size self).

(** The body of the loop over [range(len(boxes))], for one box. *)
Definition detection_of (self : YOLODetector) (processed_image : Image)
    (b : Box) : Py.result Detection :=
  let '(bx1, by1, bx2, by2) := xyxy b in
  let '(img_width, img_height) := size processed_image in
  let x1_norm := fdiv bx1 (of_int img_width) in
  let y1_norm := fdiv by1 (of_int img_height) in
  let x2_norm := fdiv bx2 (of_int img_width) in
  let y2_norm := fdiv by2 (of_int img_height) in
  name <- (if cls b <? Z.of_nat (List.length (class_names self))
           then Py.getitem (class_names self) (cls b)
           else Py.Ok ("class_" ++ Py.str_of_int (cls b))%string) ;;
  Py.Ok {| class_id := cls b;
           class_name := name;
           confidence := conf b;
           bbox := {| x1 := x1_norm; y1 := y1_norm;
                      x2 := x2_norm; y2 := y2_norm;
                      width := fsub x2_norm x1_norm;
                      height := fsub y2_norm y1_norm |} |}.

(** The loop: [detections.append(detection)] for each box in turn. *)
Fixpoint detect_loop (self : YOLODetector) (processed_image : Image)
    (bs : list Box) (detections : list Detection)
    : Py.result (list Detection) :=
  match bs with
  | [] => Py.Ok detections
  | b :: bs' =>
      detection <- detection_of self processed_image b ;;
      detect_loop self processed_image bs' (detections ++ [detection])
  end.

(** [start_time] and [end_time] are the two [time.time()] readings. *)
Definition detect_objects (self : YOLODetector) (image : image_arg)
    (start_time end_time : F) : Py.result DetectionResult :=
  image <- match image with
           | Str s =>
               image_data <- b64decode rt (last (Py.split "," s) EmptyString) ;;
               Image_open rt image_data
           | Array a =>
               a <- cvtColor_BGR2RGB rt a ;;
               Image_fromarray rt a
           | Pil im => Py.Ok im
           end ;;
  processed_image <- preprocess_image self (inl image) ;;
  results <- model rt processed_image (conf_threshold self) ;;
  detections <- match results with
                | r0 :: _ =>
                    match boxes r0 with
                    | Some bs => detect_loop self processed_image bs []
                    | None => Py.Ok []
                    end
                | [] => Py.Ok []
                end ;;
  let processing_time := fsub end_time start_time in
  let fps := if fgtb processing_time (of_int 0)
             then fdiv (flit 1%Q) processing_time
             else of_int 0 in
  Py.Ok {| detections := detections;
           processing_time := processing_time;
           fps := fps;
           image_size := (fst (size processed_image), snd (size processed_image));
           detection_count := Z.of_nat (List.length detections) |}.

End Detector.

Arguments Box F : clear implicits.
Arguments Results F : clear implicits.
Arguments Runtime F : clear implicits.
Arguments BBox F : clear implicits.
Arguments Detection F : clear implicits.
Arguments DetectionResult F : clear implicits.
Arguments YOLODetector F : clear implicits.

End yolo_detector.

(* ------------------------------------------------------------------ *)
(** * detection_server.py *)

Module detection_server.
Import yolo_detector.

Section Server.
Context {F : Type} `{PyFloat F}.

Definition TARGET_SIZE : Z * Z := (320, 240).
Definition TARGET_FPS : Z := 15.
Definition CONF_THRESHOLD : F := flit (25 # 100)%Q.

(** ** Messages sent over the socket *)

(** The dict sent with [detection_results]; a key that a sender leaves out
    is [None]. *)
Record ResultsMsg := {
  r_session_id : string;
  r_timestamp : F;
  r_error : option string;
  r_detections : list (Detection F);
  r_processing_time : F;
  r_fps : F;
  r_image_size : option (Z * Z);
  r_detection_count : option Z;
  r_processing_timestamp : option F
}.

Record DetectorInfo := {
  i_model : string;
  i_target_size : Z * Z;
  i_target_fps : Z;
  i_conf_threshold : F
}.

(** A value of [active_sessions]. *)
Record SessionInfo := {
  sid : string;
  joined_at : F;
  frame_count : Z;
  last_detection : option ResultsMsg
}.

Record StatsMsg := {
  s_session_id : string;
  s_uptime : F;
  s_frame_count : Z;
  s_last_detection : option ResultsMsg;
  s_queue_size : Z;
  s_active_sessions : Z
}.

Inductive Payload :=
| Message (message : string)
| Joined (session_id status : string) (detector_info : DetectorInfo)
| Results (r : ResultsMsg)
| Stats (s : StatsMsg).

(** [sio.emit(event, payload, room=room)] *)
Record Emit := { event : string; payload : Payload; room : string }.

(** ** [queue.Queue(maxsize=10)] *)

(** [(session_id, image_data, timestamp)] *)
Definition Job : Type := string * string * F.

Record Queue := { items : list Job; unfinished_tasks : Z }.

Definition maxsize : Z := 10.

Definition qsize (q : Queue) : Z := Z.of_nat (List.length (items q)).

Definition empty (q : Queue) : bool :=
  match items q with [] => true | _ => false end.

Definition put_nowait (q : Queue) (job : Job) : Py.result Queue :=
  if (0 <? maxsize) && (maxsize <=? qsize q) then Py.Raise Py.Full
  else Py.Ok {| items := items q ++ [job];
                unfinished_tasks := unfinished_tasks q + 1 |}.

(** [get(timeout=1)], once the second has passed without an item. *)
Definition get (q : Queue) : Py.result (Job * Queue) :=
  match items q with
  | [] => Py.Raise Py.Empty
  | job :: rest =>
      Py.Ok (job, {| items := rest; unfinished_tasks := unfinished_tasks q |})
  end.

Definition task_done (q : Queue) : Py.result Queue :=
  let unfinished := unfinished_tasks q - 1 in
  if unfinished <? 0 then Py.Raise (Py.ValueError "task_done() called too many times")
  else Py.Ok {| items := items q; unfinished_tasks := unfinished |}.

(** ** Process state *)

(** Where the worker thread stands: before [get], between the detection and
    the locked section that publishes, or ended by an exception that left
    its loop. *)
Inductive Worker :=
| Waiting
| Holding (session_id : string) (results : ResultsMsg)
| Stopped.

Record State := {
  detector : option (YOLODetector F);
  detection_queue : Queue;
  active_sessions : Py.dict SessionInfo;
  worker : Worker
}.

(** What a step does outside the state. *)
Inductive Obs :=
| OEmit (e : Emit)
| OEnterRoom (sid room : string)
| OPut (job : Job)
| OGet (job : Job).

Definition set_queue (q : Queue) (st : State) : State :=
  {| detector := detector st; detection_queue := q;
     active_sessions := active_sessions st; worker := worker st |}.

Definition set_sessions (d : Py.dict SessionInfo) (st : State) : State :=
  {| detector := detector st; detection_queue := detection_queue st;
     active_sessions := d; worker := worker st |}.

Definition set_worker (w : Worker) (st : State) : State :=
  {| detector := detector st; detection_queue := detection_queue st;
     active_sessions := active_sessions st; worker := w |}.

(** The state [__main__] starts serving from. *)
Definition initial (d : option (YOLODetector F)) : State :=
  {| detector := d;
     detection_queue := {| items := []; unfinished_tasks := 0 |};
     active_sessions := [];
     worker := Waiting |}.

Definition error_to (sid : string) (message : string) : Obs :=
  OEmit {| event := "error"; payload := Message message; room := sid |}.

(** ** Socket handlers *)

(** Payload of [join_detection_session] and [get_session_stats]. *)
Record SessionData := { d_session_id : option string }.

(** Payload of [process_frame]. *)
Record FrameData := {
  f_session_id : option string;
  f_image : option string;
  f_timestamp : option F
}.

Definition connect (sid : string) (st : State) : State * list Obs := (st, []).

(** The scan of [active_sessions.items()] up to its [break]. *)
Fixpoint session_of_sid (sid0 : string) (d : Py.dict SessionInfo) : option string :=
  match d with
  | [] => None
  | (session_id, session_info) :: d' =>
      if String.eqb (sid session_info) sid0 then Some session_id
      else session_of_sid sid0 d'
  end.

Definition disconnect (sid : string) (st : State) : State * list Obs :=
  match session_of_sid sid (active_sessions st) with
  | Some session_to_remove =>
      if Py.falsy (Some session_to_remove) then (st, [])
      else (set_sessions (Py.del session_to_remove (active_sessions st)) st, [])
  | None => (st, [])
  end.

Definition join_detection_session (sid : string) (data : SessionData) (now : F)
    (st : State) : State * list Obs :=
  match d_session_id data with
  | Some session_id =>
      if Py.falsy (Some session_id) then (st, [error_to sid "Session ID required"])
      else
        let info := {| sid := sid; joined_at := now;
                       frame_count := 0; last_detection := None |} in
        (set_sessions (Py.set session_id info (active_sessions st)) st,
         [ OEnterRoom sid session_id;
           OEmit {| event := "joined_session";
                    payload := Joined session_id "ready"
                                 {| i_model := "YOLOv5n";
                                    i_target_size := TARGET_SIZE;
                                    i_target_fps := TARGET_FPS;
                                    i_conf_threshold := CONF_THRESHOLD |};
                    room := sid |} ])
  | None => (st, [error_to sid "Session ID required"])
  end.

(** The reply sent when [put_nowait] raises [queue.Full]. *)
Definition queue_full_reply (session_id : string) (timestamp : F) : ResultsMsg :=
  {| r_session_id := session_id;
     r_timestamp := timestamp;
     r_error := Some "Detection queue full, frame skipped";
     r_detections := [];
     r_processing_time := of_int 0;
     r_fps := of_int 0;
     r_image_size := None;
     r_detection_count := None;
     r_processing_timestamp := None |}.

Definition bump (info : SessionInfo) : SessionInfo :=
  {| sid := sid info; joined_at := joined_at info;
     frame_count := frame_count info + 1;
     last_detection := last_detection info |}.

Definition process_frame (sid : string) (data : FrameData) (now : F)
    (st : State) : State * list Obs :=
  match detector st with
  | None => (st, [error_to sid "Detector not initialized"])
  | Some _ =>
      let timestamp := match f_timestamp data with Some t => t | None => now end in
      if Py.falsy (f_session_id data) || Py.falsy (f_image data)
      then (st, [error_to sid "Session ID and image data required"])
      else
        match f_session_id data, f_image data with
        | Some session_id, Some image_data =>
            match Py.get session_id (active_sessions st) with
            | None => (st, [error_to sid "Session not found"])
            | Some info =>
                let st1 :=
                  set_sessions (Py.set session_id (bump info) (active_sessions st)) st in
                let job := (session_id, image_data, timestamp) in
                match put_nowait (detection_queue st1) job with
                | Py.Ok q => (set_queue q st1, [OPut job])
                | Py.Raise Py.Full =>
                    (st1, [OEmit {| event := "detection_results";
                                    payload := Results (queue_full_reply session_id timestamp);
                                    room := sid |}])
                | Py.Raise _ => (st1, [])  (* [put_nowait] raises nothing else *)
                end
            end
        | _, _ => (st, [error_to sid "Session ID and image data required"])
        end
  end.

Definition get_session_stats (sid : string) (data : SessionData) (now : F)
    (st : State) : State * list Obs :=
  match d_session_id data with
  | Some session_id =>
      match Py.get session_id (active_sessions st) with
      | None => (st, [error_to sid "Session not found"])
      | Some session_info =>
          (st, [OEmit {| event := "session_stats";
                         payload := Stats
                           {| s_session_id := session_id;
                              s_uptime := fsub now (joined_at session_info);
                              s_frame_count := frame_count session_info;
                              s_last_detection := last_detection session_info;
                              s_queue_size := qsize (detection_queue st);
                              s_active_sessions :=
                                Z.of_nat (List.length (active_sessions st)) |};
                         room := sid |}])
      end
  | None => (st, [error_to sid "Session not found"])
  end.

(** ** The worker thread *)

Variable rt : Runtime F.

(** [results] with the three metadata keys added. *)
Definition with_metadata (results : DetectionResult F) (session_id : string)
    (timestamp processing_timestamp : F) : ResultsMsg :=
  {| r_session_id := session_id;
     r_timestamp := timestamp;
     r_error := None;
     r_detections := detections results;
     r_processing_time := processing_time results;
     r_fps := fps results;
     r_image_size := Some (image_size results);
     r_detection_count := Some (detection_count results);
     r_processing_timestamp := Some processing_timestamp |}.

(** [except Exception]: the job is given up; an exception raised in here
    leaves the [while] loop and ends the thread. *)
Definition worker_except (st : State) : State :=
  if negb (empty (detection_queue st)) then
    match task_done (detection_queue st) with
    | Py.Ok q => set_worker Waiting (set_queue q st)
    | Py.Raise _ => set_worker Stopped st
    end
  else set_worker Waiting st.

(** From [get] to the last metadata assignment.  [start_time] and
    [end_time] are read inside [detect_objects], [processing_timestamp]
    after it. *)
Definition worker_fetch (start_time end_time processing_timestamp : F)
    (st : State) : State * list Obs :=
  match worker st with
  | Waiting =>
      match get (detection_queue st) with
      | Py.Ok ((session_id, image_data, timestamp) as job, q) =>
          let st1 := set_queue q st in
          match detector st1 with
          | None => (st1, [OGet job])
          | Some d =>
              match detect_objects rt d (Str image_data) start_time end_time with
              | Py.Ok results =>
                  (set_worker
                     (Holding session_id
                        (with_metadata results session_id timestamp processing_timestamp))
                     st1,
                   [OGet job])
              | Py.Raise Py.Empty => (st1, [OGet job])
              | Py.Raise _ => (worker_except st1, [OGet job])
              end
          end
      | Py.Raise _ => (st, [])
      end
  | _ => (st, [])
  end.

(** The locked section and [task_done]. *)
Definition worker_publish (st : State) : State * list Obs :=
  match worker st with
  | Holding session_id results =>
      let sent :=
        if Py.mem session_id (active_sessions st)
        then [OEmit {| event := "detection_results";
                       payload := Results results;
                       room := session_id |}]
        else [] in
      match task_done (detection_queue st) with
      | Py.Ok q => (set_worker Waiting (set_queue q st), sent)
      | Py.Raise _ => (worker_except st, sent)
      end
  | _ => (st, [])
  end.

(** One pass through the body of [while True]. *)
Definition detection_worker (start_time end_time processing_timestamp : F)
    (st : State) : State * list Obs :=
  let (st1, o1) := worker_fetch start_time end_time processing_timestamp st in
  let (st2, o2) := worker_publish st1 in
  (st2, o1 ++ o2).

(** ** Runs *)

Inductive Event :=
| Connect (sid : string)
| Disconnect (sid : string)
| Join (sid : string) (data : SessionData) (now : F)
| Frame (sid : string) (data : FrameData) (now : F)
| GetStats (sid : string) (data : SessionData) (now : F)
| Fetch (start_time end_time processing_timestamp : F)
| Publish.

Definition step (ev : Event) (st : State) : State * list Obs :=
  match ev with
  | Connect sid => connect sid st
  | Disconnect sid => disconnect sid st
  | Join sid data now => join_detection_session sid data now st
  | Frame sid data now => process_frame sid data now st
  | GetStats sid data now => get_session_stats sid data now st
  | Fetch t0 t1 t2 => worker_fetch t0 t1 t2 st
  | Publish => worker_publish st
  end.

Fixpoint run (evs : list Event) (st : State) : State * list Obs :=
  match evs with
  | [] => (st, [])
  | ev :: evs' =>
      let (st1, o1) := step ev st in
      let (st2, o2) := run evs' st1 in
      (st2, o1 ++ o2)
  end.

(** ** Reading a trace *)

Definition job_session (job : Job) : string := fst (fst job).
Definition job_timestamp (job : Job) : F := snd job.

Definition puts (o : list Obs) : list Job :=
  flat_map (fun x => match x with OPut j => [j] | _ => [] end) o.

Definition gets (o : list Obs) : list Job :=
  flat_map (fun x => match x with OGet j => [j] | _ => [] end) o.

Definition emits (o : list Obs) : list Emit :=
  flat_map (fun x => match x with OEmit e => [e] | _ => [] end) o.

(** Results the worker sent to the room of [session_id]. *)
Definition published (session_id : string) (o : list Obs) : list ResultsMsg :=
  flat_map (fun e => match payload e with
                     | Results r =>
                         match r_error r with
                         | None => if String.eqb (room e) session_id then [r] else []
                         | Some _ => []
                         end
                     | _ => []
                     end) (emits o).

(** Queue-full replies about [session_id]. *)
Definition skipped (session_id : string) (o : list Obs) : list ResultsMsg :=
  flat_map (fun e => match payload e with
                     | Results r =>
                         match r_error r with
                         | Some _ => if String.eqb (r_session_id r) session_id then [r] else []
                         | None => []
                         end
                     | _ => []
                     end) (emits o).

Definition for_session (session_id : string) (jobs : list Job) : list Job :=
  filter (fun j => String.eqb (job_session j) session_id) jobs.

End Server.

Arguments ResultsMsg F : clear implicits.
Arguments DetectorInfo F : clear implicits.
Arguments SessionInfo F : clear implicits.
Arguments StatsMsg F : clear implicits.
Arguments Payload F : clear implicits.
Arguments Emit F : clear implicits.
Arguments Queue F : clear implicits.
Arguments Worker F : clear implicits.
Arguments State F : clear implicits.
Arguments Obs F : clear implicits.
Arguments Event F : clear implicits.
Arguments FrameData F : clear implicits.
Arguments Job F : clear implicits.

End detection_server.

(* ------------------------------------------------------------------ *)
(** * Sample runtime and inputs, over the rationals *)

Module Sample.
Import yolo_detector detection_server.

(** A stand-in for the libraries: a payload is its own decoding, an empty
    payload is no image, a resize gives the requested size when both sides
    are positive, and the model reports one box, the upper left quarter of
    the image it is given. *)
Definition rt : Runtime Q :=
  {| b64decode := fun s => Py.Ok s;
     Image_open := fun s =>
       match s with
       | EmptyString => Py.Raise (Py.LibraryError "cannot identify image file")
       | _ => Py.Ok {| size := (640, 480); content := s |}
       end;
     Image_fromarray := fun a => Py.Ok {| size := (640, 480); content := buffer a |};
     cvtColor_BGR2RGB := fun a => Py.Ok a;
     resize_LANCZOS := fun im sz =>
       if (0 <? fst sz) && (0 <? snd sz)
       then Py.Ok {| size := sz; content := content im |}
       else Py.Raise (Py.ValueError "height and width must be > 0");
     model := fun im _ =>
       Py.Ok [ {| boxes := Some
                    [ {| xyxy := (0%Q, 0%Q,
                                  (inject_Z (fst (size im)) / 2)%Q,
                                  (inject_Z (snd (size im)) / 2)%Q);
                         conf := (9 # 10)%Q;
                         cls := 0 |} ] |} ] |}.

Definition yolo : YOLODetector Q :=
  init "yolov5n.pt" CONF_THRESHOLD TARGET_SIZE TARGET_FPS.

Definition good_image : string := "data:image/jpeg;base64,/9j/4AAQ".
Definition bad_image : string := "data:image/jpeg;base64,".

(** What [detect_objects] returns for [good_image] between clock readings
    [1] and [3]. *)
Definition detection_good : Detection Q :=
  {| class_id := 0;
     class_name := "person";
     confidence := (9 # 10)%Q;
     bbox := {| x1 := (0 # 320)%Q; y1 := (0 # 240)%Q;
                x2 := (320 # 640)%Q; y2 := (240 # 480)%Q;
                width := (102400 # 204800)%Q;
                height := (57600 # 115200)%Q |} |}.

Definition result_good : DetectionResult Q :=
  {| detections := [detection_good];
     processing_time := 2%Q;
     fps := (1 # 2)%Q;
     image_size := (320, 240);
     detection_count := 1 |}.

Definition session_s1 : SessionInfo Q :=
  {| sid := "sid-A"; joined_at := 100%Q; frame_count := 0; last_detection := None |}.

Definition job_s1 (t : Q) : Job Q := ("s1", good_image, t).

(** Ten jobs wait in the queue: it is full. *)
Definition full_queue : Queue Q :=
  {| items := map job_s1 [1; 2; 3; 4; 5; 6; 7; 8; 9; 10]%Q;
     unfinished_tasks := 10 |}.

Definition st_full : State Q :=
  {| detector := Some yolo;
     detection_queue := full_queue;
     active_sessions := [("s1", session_s1)];
     worker := Waiting |}.

(** One job with an undecodable image is waiting; its session is live. *)
Definition st_bad : State Q :=
  {| detector := Some yolo;
     detection_queue := {| items := [("s1", bad_image, 7%Q)]; unfinished_tasks := 1 |};
     active_sessions := [("s1", session_s1)];
     worker := Waiting |}.

(** One job with a decodable image is waiting; its session is live. *)
Definition st_good : State Q :=
  {| detector := Some yolo;
     detection_queue := {| items := [job_s1 7%Q]; unfinished_tasks := 1 |};
     active_sessions := [("s1", session_s1)];
     worker := Waiting |}.

(** The worker holds the result for a frame of [s1]. *)
Definition st_inflight : State Q :=
  {| detector := Some yolo;
     detection_queue := {| items := []; unfinished_tasks := 1 |};
     active_sessions := [("s1", session_s1)];
     worker := Holding "s1" (with_metadata result_good "s1" 7%Q 4%Q) |}.

Definition frame_s1 : FrameData Q :=
  {| f_session_id := Some "s1"; f_image := Some good_image; f_timestamp := Some 11%Q |}.

Definition frame_no_image : FrameData Q :=
  {| f_session_id := Some "s1"; f_image := None; f_timestamp := Some 11%Q |}.

(** A frame that the full queue turns away, one pass of the worker, and
    the same frame again, now taken. *)
Definition evs_full : list (Event Q) :=
  [ Frame "sid-A" frame_s1 12%Q;
    Fetch 13%Q 14%Q 15%Q;
    Publish;
    Frame "sid-A" frame_s1 16%Q ].

(** From the start of the service: a join, two frames, and two passes of
    the worker. *)
Definition evs_two : list (Event Q) :=
  [ Join "sid-A" {| d_session_id := Some "s1" |} 100%Q;
    Frame "sid-A" {| f_session_id := Some "s1"; f_image := Some good_image;
                     f_timestamp := Some 1%Q |} 101%Q;
    Frame "sid-A" {| f_session_id := Some "s1"; f_image := Some good_image;
                     f_timestamp := Some 2%Q |} 102%Q;
    Fetch 103%Q 104%Q 105%Q;
    Publish;
    Fetch 106%Q 107%Q 108%Q;
    Publish ].

End Sample.

(* ------------------------------------------------------------------ *)
(** * Properties stated about the detector *)

Module detector_props.
Import yolo_detector.

Section Props.
Context {F : Type} `{PyFloat F}.

(** A normalised coordinate lies in the unit interval. *)
Definition unit_range (a : F) : Prop := fle (flit 0%Q) a /\ fle a (flit 1%Q).

(** A pixel box lies inside an image and its corners are ordered. *)
Definition box_inside (im : Image) (b : Box F) : Prop :=
  let '(bx1, by1, bx2, by2) := xyxy b in
  fle (flit 0%Q) bx1 /\ fle bx1 bx2 /\ fle bx2 (of_int (fst (size im))) /\
  fle (flit 0%Q) by1 /\ fle by1 by2 /\ fle by2 (of_int (snd (size im))).

(** What the detector takes from PIL: a resized image has positive sides. *)
Definition resize_positive (rt : Runtime F) : Prop :=
  forall im sz im',
    resize_LANCZOS rt im sz = Py.Ok im' ->
    0 < fst (size im') /\ 0 < snd (size im').

(** What the detector takes from the model: the boxes it reports for an
    image are clipped to that image, corners in order. *)
Definition model_clips (rt : Runtime F) : Prop :=
  forall im c r0 rest bs b,
    0 < fst (size im) -> 0 < snd (size im) ->
    model rt im c = Py.Ok (r0 :: rest) ->
    boxes r0 = Some bs -> In b bs ->
    box_inside im b.

Definition bbox_ok (d : Detection F) : Prop :=
  let b := bbox d in
  fle (x1 b) (x2 b) /\ fle (y1 b) (y2 b) /\
  unit_range (x1 b) /\ unit_range (y1 b) /\
  unit_range (x2 b) /\ unit_range (y2 b) /\
  width b = fsub (x2 b) (x1 b) /\ height b = fsub (y2 b) (y1 b).

End Props.
End detector_props.

(* ------------------------------------------------------------------ *)
(** * Properties stated about the server *)

Module server_props.
Import yolo_detector detection_server.

(** [l1] is [l2] with some elements left out, the others in their order. *)
Inductive subseq {A : Type} : list A -> list A -> Prop :=
| subseq_nil : subseq [] []
| subseq_skip x l1 l2 : subseq l1 l2 -> subseq l1 (x :: l2)
| subseq_keep x l1 l2 : subseq l1 l2 -> subseq (x :: l1) (x :: l2).

Section Props.
Context {F : Type} `{PyFloat F}.

(** The number of jobs the worker has taken and not yet accounted for. *)
Definition holding (w : Worker F) : Z :=
  match w with Holding _ _ => 1 | _ => 0 end.

(** The queue's bookkeeping covers every job that is waiting or held, and
    the worker thread is alive. *)
Definition queue_ok (st : State F) : Prop :=
  worker st <> Stopped /\
  qsize (detection_queue st) + holding (worker st)
    <= unfinished_tasks (detection_queue st).

(** A result the worker holds comes from [detect_objects] and so has no
    [error] key. *)
Definition untagged (st : State F) : Prop :=
  match worker st with
  | Holding _ r => r_error r = None
  | _ => True
  end.

(** [active_sessions] has each key once, as a [dict] does. *)
Definition registry_ok (st : State F) : Prop :=
  NoDup (Py.keys (active_sessions st)).

(** Timestamps of the frames of [session_id] that are past [put_nowait] and
    not yet past the worker: the one it holds, then those in the queue. *)
Definition held (session_id : string) (w : Worker F) : list F :=
  match w with
  | Holding s r => if String.eqb s session_id then [r_timestamp r] else []
  | _ => []
  end.

Definition pending (session_id : string) (st : State F) : list F :=
  held session_id (worker st)
  ++ map (@job_timestamp F) (for_session session_id (items (detection_queue st))).

(** The event neither joins [session_id] anew nor disconnects [owner]. *)
Definition spares (session_id owner : string) (ev : Event F) : bool :=
  match ev with
  | Join _ data _ =>
      match d_session_id data with
      | Some s => negb (String.eqb s session_id)
      | None => true
      end
  | Disconnect sid => negb (String.eqb sid owner)
  | _ => true
  end.

Definition no_last_detection (d : Py.dict (SessionInfo F)) : Prop :=
  Forall (fun p => last_detection (snd p) = None) d.

(** C1 as worded, for one pass of the worker over a queue headed by a job
    of a live session: a detection that raises still gives a result tagged
    with an error and holding no detections, sent as [detection_results]. *)
Definition failure_is_published (rt : Runtime F) (st : State F)
    (t0 t1 t2 : F) : Prop :=
  forall d session_id image_data timestamp rest e,
    detector st = Some d ->
    worker st = Waiting ->
    items (detection_queue st) = (session_id, image_data, timestamp) :: rest ->
    Py.mem session_id (active_sessions st) = true ->
    detect_objects rt d (Str image_data) t0 t1 = Py.Raise e ->
    exists m r,
      In m (emits (snd (detection_worker rt t0 t1 t2 st))) /\
      payload m = Results r /\
      r_detections r = [] /\ r_error r <> None.

(** C2 as worded, for one [process_frame]: a frame of a live session that
    the full queue turns away leaves the session's [frame_count] as it
    was. *)
Definition rejection_keeps_count (st : State F) (sid : string)
    (data : FrameData F) (now : F) : Prop :=
  forall session_id image_data info,
    detector st <> None ->
    f_session_id data = Some session_id -> session_id <> EmptyString ->
    f_image data = Some image_data -> image_data <> EmptyString ->
    Py.get session_id (active_sessions st) = Some info ->
    maxsize <= qsize (detection_queue st) ->
    option_map (@frame_count F)
      (Py.get session_id (active_sessions (fst (process_frame sid data now st))))
    = Some (frame_count info).

End Props.
End server_props.

(* ------------------------------------------------------------------ *)
(** * detection_server.py: start-up *)

Module startup.
Import yolo_detector detection_server.

(** What start-up asks of the machine: [os.path.exists], and the loading
    of the weights inside [YOLODetector.__init__]. *)
Record Host := {
  path_exists : string -> bool;
  YOLO : string -> Py.result unit
}.

Section Startup.
Context {F : Type} `{PyFloat F}.
Variable h : Host.

Definition MODEL_PATH : string :=
  if negb (path_exists h "yolov5n.pt") then "../yolov5n.pt" else "yolov5n.pt".

(** The value left in the global [detector], and the value returned.  The
    constructor is called with [TARGET_FPS], so that its [1.0 / target_fps]
    divides by 15; what can raise in it is the loading of the weights. *)
Definition initialize_detector : option (YOLODetector F) * bool :=
  if negb (path_exists h MODEL_PATH) then (None, false)
  else
    match YOLO h MODEL_PATH with
    | Py.Ok _ =>
        (Some (init MODEL_PATH CONF_THRESHOLD TARGET_SIZE TARGET_FPS), true)
    | Py.Raise _ => (None, false)
    end.

(** [__main__]: [None] is [sys.exit(1)]; otherwise the state in which the
    worker thread and the server start. *)
Definition main : option (State F) :=
  let (detector, ok) := initialize_detector in
  if negb ok then None else Some (initial detector).

End Startup.
End startup.

(* ------------------------------------------------------------------ *)
(** * detection_server.py: REST routes *)

Module rest_api.
Import yolo_detector detection_server.

(** [str(e)] *)
Definition str_exn (e : Py.exn) : string :=
  match e with
  | Py.Empty => EmptyString
  | Py.Full => EmptyString
  | Py.ValueError msg => msg
  | Py.IndexError => "list index out of range"
  | Py.LibraryError msg => msg
  end.

Section Routes.
Context {F : Type} `{PyFloat F}.
Variable rt : Runtime F.

(** One element of the list built by [get_active_sessions]. *)
Record SessionSummary := {
  u_session_id : string;
  u_uptime : F;
  u_frame_count : Z
}.

(** What [jsonify] is given. *)
Inductive Body :=
| Health (status : string) (detector_ready : bool) (active_sessions : Z)
    (queue_size : Z) (model_info : DetectorInfo F)
| Error (error : string)
| Detected (results : DetectionResult F) (timestamp : F)
| Sessions (active_sessions : list SessionSummary) (total_count : Z).

Record Response := { body : Body; status_code : Z }.

Definition health_check (st : State F) : Response :=
  {| body := Health "OK"
               (match detector st with Some _ => true | None => false end)
               (Z.of_nat (List.length (active_sessions st)))
               (qsize (detection_queue st))
               {| i_model := "YOLOv5n";
                  i_target_size := TARGET_SIZE;
                  i_target_fps := TARGET_FPS;
                  i_conf_threshold := CONF_THRESHOLD |};
     status_code := 200 |}.

(** [image] is what [request.get_json().get('image')] comes to: the value
    of the key, [None] when it is absent, or the exception raised on the
    way.  [start_time] and [end_time] are read inside [detect_objects],
    [now] after it. *)
Definition detect_objects_api (st : State F) (image : Py.result (option string))
    (start_time end_time now : F) : Response :=
  match detector st with
  | None => {| body := Error "Detector not initialized"; status_code := 500 |}
  | Some d =>
      match image with
      | Py.Ok image_data =>
          if Py.falsy image_data
          then {| body := Error "Image data required"; status_code := 400 |}
          else
            match image_data with
            | Some s =>
                match detect_objects rt d (Str s) start_time end_time with
                | Py.Ok results =>
                    {| body := Detected results now; status_code := 200 |}
                | Py.Raise e =>
                    {| body := Error (str_exn e); status_code := 500 |}
                end
            | None => {| body := Error "Image data required"; status_code := 400 |}
            end
      | Py.Raise e => {| body := Error (str_exn e); status_code := 500 |}
      end
  end.

(** The loop over [active_sessions.items()]; [clock i] is the reading of
    [time.time()] in its [i]-th round. *)
Fixpoint summaries (clock : nat -> F) (i : nat) (d : Py.dict (SessionInfo F))
    : list SessionSummary :=
  match d with
  | [] => []
  | (session_id, session_info) :: d' =>
      {| u_session_id := session_id;
         u_uptime := fsub (clock i) (joined_at session_info);
         u_frame_count := frame_count session_info |}
      :: summaries clock (S i) d'
  end.

Definition get_active_sessions (st : State F) (clock : nat -> F) : Response :=
  let sessions := summaries clock 0 (active_sessions st) in
  {| body := Sessions sessions (Z.of_nat (List.length sessions));
     status_code := 200 |}.

End Routes.

Arguments SessionSummary F : clear implicits.
Arguments Body F : clear implicits.
Arguments Response F : clear implicits.

End rest_api.

(* ------------------------------------------------------------------ *)
(** * yolo_detector.py: drawing *)

(** The further float operations of [draw_detections]: [float * int],
    [int(x)] and the format [f"{x:.2f}"]. *)
Class PyFloatDraw (F : Type) := {
  fmul_int : F -> Z -> F;
  int_of : F -> Z;
  format_2f : F -> string
}.

Module drawing.
Import yolo_detector.

(** Digits of [n] padded to two places. *)
Definition two_digits (n : Z) : string :=
  if n <? 10 then ("0" ++ Py.str_of_int n)%string else Py.str_of_int n.

(** The rationals: the product, the truncation towards zero, and the
    rounding to the nearest hundredth, halves to the even one. *)
#[export] Instance QDraw : PyFloatDraw Q := {
  fmul_int := fun q z => Qmult q (inject_Z z);
  int_of := fun q => Z.quot (Qnum q) (Z.pos (Qden q));
  format_2f := fun q =>
    let n := Qnum q * 100 in
    let d := Z.pos (Qden q) in
    let a := Z.abs n in
    let lo := a / d in
    let r := 2 * (a mod d) in
    let c := if d <? r then lo + 1
             else if (r =? d) && Z.odd lo then lo + 1
             else lo in
    let sign := if n <? 0 then "-" else EmptyString in
    let whole := Py.str_of_int (c / 100) in
    let cents := two_digits (c mod 100) in
    (sign ++ whole ++ "." ++ cents)%string
}.

Section Drawing.
Context {F : Type} `{PyFloat F} `{PyFloatDraw F}.

(** A BGR colour. *)
Definition Color : Type := Z * Z * Z.

(** The calls made on [cv_image], in order. *)
Inductive Call :=
| cv2_rectangle (pt1 pt2 : Z * Z) (color : Color) (thickness : Z)
| cv2_putText (text : string) (org : Z * Z) (fontScale : F)
    (color : Color) (thickness : Z).

Definition colors : list Color :=
  [ (0, 255, 0); (255, 0, 0); (0, 0, 255); (255, 255, 0); (255, 0, 255);
    (0, 255, 255); (128, 0, 128); (255, 165, 0); (0, 128, 0); (128, 128, 0) ].


(** The text of the label, from [label = ""] on. *)
Definition label_of (d : Detection F) (draw_labels draw_confidence : bool) : string :=
  let label := EmptyString in
  let label := if draw_labels then (label ++ class_name d)%string else label in
  if draw_confidence then
    if negb (Py.falsy (Some label))
    then (label ++ " (" ++ format_2f (confidence d) ++ ")")%string
    else format_2f (confidence d)
  else label.

(** [cv2.getTextSize(label, FONT_HERSHEY_SIMPLEX, 0.5, 1)], which gives
    [((text_width, text_height), baseline)]. *)
Variable getTextSize : string -> Z * Z * Z.

(** The body of the loop over [detections], for an image of the given
    [width] and [height]. *)
Definition draw_one (width height : Z) (draw_labels draw_confidence : bool)
    (detection : Detection F) : Py.result (list Call) :=
  let b := bbox detection in
  let px1 := int_of (fmul_int (x1 b) width) in
  let py1 := int_of (fmul_int (y1 b) height) in
  let px2 := int_of (fmul_int (x2 b) width) in
  let py2 := int_of (fmul_int (y2 b) height) in
  color <- Py.getitem colors (class_id detection mod Z.of_nat (List.length colors)) ;;
  let box := cv2_rectangle (px1, py1) (px2, py2) color 2 in
  if draw_labels || draw_confidence then
    let label := label_of detection draw_labels draw_confidence in
    let '(text_width, text_height, baseline) := getTextSize label in
    Py.Ok [ box;
            cv2_rectangle (px1, py1 - text_height - baseline - 5)
              (px1 + text_width, py1) color (-1);
            cv2_putText label (px1, py1 - baseline - 2) (flit (5 # 10)%Q)
              (255, 255, 255) 1 ]
  else Py.Ok [box].

Fixpoint draw_loop (width height : Z) (draw_labels draw_confidence : bool)
    (detections : list (Detection F)) : Py.result (list Call) :=
  match detections with
  | [] => Py.Ok []
  | detection :: rest =>
      calls <- draw_one width height draw_labels draw_confidence detection ;;
      more <- draw_loop width height draw_labels draw_confidence rest ;;
      Py.Ok (calls ++ more)
  end.

(** The drawing calls of [draw_detections]; the image read and the image
    returned have the size of [image]. *)
Definition draw_detections (image : Image) (detections : list (Detection F))
    (draw_labels draw_confidence : bool) : Py.result (list Call) :=
  let '(width, height) := size image in
  draw_loop width height draw_labels draw_confidence detections.

End Drawing.

Arguments Call F : clear implicits.

End drawing.

(* ------------------------------------------------------------------ *)
(** * test_detector.py *)

Module test_detector.
Import yolo_detector.

(** The library calls of [image_to_base64]: [Image.fromarray] of the
    colour-converted array, [image.save(buffer, format='JPEG')] with
    [buffer.getvalue()], and [base64.b64encode(...).decode()]. *)
Record Encoder := {
  fromarray_BGR2RGB : ndarray -> Image;
  save_JPEG : Image -> string;
  b64encode : string -> string
}.

Definition image_to_base64 (e : Encoder) (image : Image + ndarray) : string :=
  let image := match image with
               | inr a => fromarray_BGR2RGB e a
               | inl im => im
               end in
  let img_str := b64encode e (save_JPEG e image) in
  ("data:image/jpeg;base64," ++ img_str)%string.

End test_detector.

(* ------------------------------------------------------------------ *)
(** * Further properties stated about the code *)

Module more_props.
Import yolo_detector detection_server.

(** No comma occurs in the string. *)
Fixpoint comma_free (s : string) : bool :=
  match s with
  | EmptyString => true
  | String c r => negb (Ascii.eqb c ",") && comma_free r
  end.

Section Props.
Context {F : Type} `{PyFloat F}.

(** The boxes [detect_objects] loops over, given what the model returned. *)
Definition reported (results : list (yolo_detector.Results F)) : list (Box F) :=
  match results with
  | r0 :: _ => match boxes r0 with Some bs => bs | None => [] end
  | [] => []
  end.

(** What the detector takes from PIL: a resized image has the size asked
    for. *)
Definition resize_exact (rt : Runtime F) : Prop :=
  forall im sz im', resize_LANCZOS rt im sz = Py.Ok im' -> size im' = sz.

(** The connection whose handler the event runs; the worker has none. *)
Definition caller (ev : Event F) : option string :=
  match ev with
  | Connect sid | Disconnect sid => Some sid
  | Join sid _ _ | Frame sid _ _ | GetStats sid _ _ => Some sid
  | Fetch _ _ _ | Publish => None
  end.

(** A [process_frame] for [session_id] with an image. *)
Definition frame_for (session_id : string) (ev : Event F) : bool :=
  match ev with
  | Frame _ data _ =>
      match f_session_id data with
      | Some s => String.eqb s session_id
      | None => false
      end
      && negb (Py.falsy (f_image data))
  | _ => false
  end.


(** No detector, an empty queue and the worker at the top of its loop. *)
Definition idle (st : State F) : Prop :=
  detector st = None /\ items (detection_queue st) = [] /\ worker st = Waiting.

(** The payload of a [detection_results] message. *)
Definition is_results (m : Emit F) : bool :=
  match payload m with Results _ => true | _ => false end.

End Props.
End more_props.

(* ------------------------------------------------------------------ *)
(** * Further sample inputs *)

Module Sample2.
Import yolo_detector detection_server Sample.

(** The weights lie in the parent directory and load. *)
Definition host : startup.Host :=
  {| startup.path_exists := fun p => String.eqb p "../yolov5n.pt";
     startup.YOLO := fun _ => Py.Ok tt |}.

(** The state the service starts from on [host]. *)
Definition st_started : State Q :=
  initial (Some (init "../yolov5n.pt" CONF_THRESHOLD TARGET_SIZE TARGET_FPS)).

(** An encoder whose JPEG bytes always come to the same base64 text. *)
Definition encoder : test_detector.Encoder :=
  {| test_detector.fromarray_BGR2RGB := fun a => {| size := (320, 240); content := buffer a |};
     test_detector.save_JPEG := fun im => content im;
     test_detector.b64encode := fun _ => "/9j/4AAQ" |}.

Definition picture : Image := {| size := (320, 240); content := "pixels" |}.

(** A box of a class beyond the list of names, and one of class [-1]. *)
Definition box_85 : Box Q :=
  {| xyxy := (0%Q, 0%Q, 10%Q, 10%Q); conf := (1 # 2)%Q; cls := 85 |}.

Definition rt_last_class : Runtime Q :=
  {| b64decode := b64decode rt;
     Image_open := Image_open rt;
     Image_fromarray := Image_fromarray rt;
     cvtColor_BGR2RGB := cvtColor_BGR2RGB rt;
     resize_LANCZOS := resize_LANCZOS rt;
     model := fun im _ =>
       Py.Ok [ {| boxes := Some
                    [ {| xyxy := (0%Q, 0%Q, 10%Q, 10%Q);
                         conf := (1 # 2)%Q;
                         cls := -1 |} ] |} ] |}.

Definition detection_last_class : Detection Q :=
  {| class_id := -1;
     class_name := "toothbrush";
     confidence := (1 # 2)%Q;
     bbox := {| x1 := (0 # 320)%Q; y1 := (0 # 240)%Q;
                x2 := (10 # 320)%Q; y2 := (10 # 240)%Q;
                width := (3200 # 102400)%Q;
                height := (2400 # 57600)%Q |} |}.

Definition result_last_class : DetectionResult Q :=
  {| detections := [detection_last_class];
     processing_time := 2%Q;
     fps := (1 # 2)%Q;
     image_size := (320, 240);
     detection_count := 1 |}.

(** One connection has joined two sessions. *)
Definition st_two_sessions : State Q :=
  {| detector := Some yolo;
     detection_queue := {| items := []; unfinished_tasks := 0 |};
     active_sessions :=
       [ ("s1", session_s1);
         ("s2", {| sid := "sid-A"; joined_at := 150%Q;
                   frame_count := 4; last_detection := None |}) ];
     worker := Waiting |}.

(** Nine jobs wait: there is room for one more. *)
Definition st_nine : State Q :=
  {| detector := Some yolo;
     detection_queue :=
       {| items := map job_s1 [1; 2; 3; 4; 5; 6; 7; 8; 9]%Q;
          unfinished_tasks := 9 |};
     active_sessions := [("s1", session_s1)];
     worker := Waiting |}.

Definition burst : list (Event Q) :=
  [ Frame "sid-A" frame_s1 20%Q;
    Frame "sid-A" frame_s1 21%Q;
    Frame "sid-A" frame_s1 22%Q ].

Definition frame_s9 : FrameData Q :=
  {| f_session_id := Some "s9"; f_image := Some good_image; f_timestamp := None |}.

End Sample2.

Unset Implicit Arguments.

(* ------------------------------------------------------------------ *)
(** * The rationals have the laws of [PyFloatLaws] *)

Lemma Q_of_int_pos (w : Z) : 0 < w -> (0 < inject_Z w)%Q.
Proof. intros Hw. unfold Qlt. simpl. lia. Qed.

Lemma Q_div_mono (a b : Q) (w : Z) :
  0 < w -> (a <= b)%Q -> (a / inject_Z w <= b / inject_Z w)%Q.
Proof.
  intros Hw Hab. unfold Qdiv.
  apply Qmult_le_compat_r; [exact Hab|].
  apply Qlt_le_weak, Qinv_lt_0_compat, Q_of_int_pos, Hw.
Qed.

Lemma Q_div_zero (w : Z) : 0 < w -> (0 <= 0 / inject_Z w)%Q.
Proof. intros _. unfold Qdiv. rewrite Qmult_0_l. apply Qle_refl. Qed.

Lemma Q_div_self (w : Z) : 0 < w -> (inject_Z w / inject_Z w <= 1)%Q.
Proof.
  intros Hw. apply Qle_shift_div_r; [apply Q_of_int_pos, Hw|].
  rewrite Qmult_1_l. apply Qle_refl.
Qed.

#[export] Instance QFloatLaws : PyFloatLaws Q.
Proof.
  split.
  - exact Qle_trans.
  - exact Q_div_mono.
  - exact Q_div_zero.
  - exact Q_div_self.
Qed.

(* ------------------------------------------------------------------ *)
(** * The detector *)

Module detector_facts.
Import yolo_detector detector_props.

Section Facts.
Context {F : Type} {ops : PyFloat F} {laws : PyFloatLaws F}.
Variable rt : Runtime F.

Lemma bind_ok {A B} (r : Py.result A) (k : A -> Py.result B) (b : B) :
  Py.bind r k = Py.Ok b -> exists a, r = Py.Ok a /\ k a = Py.Ok b.
Proof. destruct r as [a|e]; simpl; intros E; [eauto | discriminate]. Qed.

Lemma detect_loop_length self im bs : forall acc ds,
  detect_loop self im bs acc = Py.Ok ds ->
  List.length ds = (List.length acc + List.length bs)%nat.
Proof.
  induction bs as [|b bs IH]; simpl; intros acc ds E.
  - injection E as <-. lia.
  - apply bind_ok in E. destruct E as (d & _ & E).
    apply IH in E. rewrite E, length_app. simpl. lia.
Qed.

Lemma detect_loop_In self im bs : forall acc ds d,
  detect_loop self im bs acc = Py.Ok ds -> In d ds ->
  In d acc \/ exists b, In b bs /\ detection_of self im b = Py.Ok d.
Proof.
  induction bs as [|b bs IH]; simpl; intros acc ds d E Hd.
  - injection E as <-. now left.
  - apply bind_ok in E. destruct E as (d0 & Eb & E).
    destruct (IH _ _ _ E Hd) as [Hacc | (b' & Hb' & Eb')].
    + apply in_app_or in Hacc. destruct Hacc as [Hacc | [<- | []]].
      * now left.
      * right. exists b. split; [now left | assumption].
    + right. exists b'. split; [now right | assumption].
Qed.

Lemma unit_range_div (a : F) (w : Z) :
  0 < w -> fle (flit 0%Q) a -> fle a (of_int w) -> unit_range (fdiv a (of_int w)).
Proof.
  intros Hw H0 H1. split.
  - eapply fle_trans; [apply fdiv_zero, Hw | apply fdiv_mono; assumption].
  - eapply fle_trans; [apply fdiv_mono; eassumption | apply fdiv_self, Hw].
Qed.

Lemma detection_of_bbox self im b d :
  0 < fst (size im) -> 0 < snd (size im) -> box_inside im b ->
  detection_of self im b = Py.Ok d -> bbox_ok d.
Proof.
  unfold detection_of, box_inside.
  destruct (xyxy b) as [[[bx1 by1] bx2] by2].
  destruct (size im) as [w h]. simpl.
  intros Hw Hh (Hx0 & Hx & Hxw & Hy0 & Hy & Hyh) E.
  apply bind_ok in E. destruct E as (name & _ & E).
  injection E as <-. unfold bbox_ok. simpl.
  assert (fle (flit 0%Q) bx2) by (apply (fle_trans _ bx1); assumption).
  assert (fle (flit 0%Q) by2) by (apply (fle_trans _ by1); assumption).
  assert (fle bx1 (of_int w)) by (apply (fle_trans _ bx2); assumption).
  assert (fle by1 (of_int h)) by (apply (fle_trans _ by2); assumption).
  repeat split; try reflexivity;
    try (apply fdiv_mono; assumption);
    try (apply unit_range_div; assumption).
Qed.

(** What [detect_objects] went through when it returned [r]. *)
Lemma detect_objects_ok self image t0 t1 r :
  detect_objects rt self image t0 t1 = Py.Ok r ->
  exists im0 im results ds,
    resize_LANCZOS rt im0 (target_size self) = Py.Ok im /\
    model rt im (conf_threshold self) = Py.Ok results /\
    match results with
    | r0 :: _ => match boxes r0 with
                 | Some bs => detect_loop self im bs []
                 | None => Py.Ok []
                 end
    | [] => Py.Ok []
    end = Py.Ok ds /\
    r = {| detections := ds;
           processing_time := fsub t1 t0;
           fps := if fgtb (fsub t1 t0) (of_int 0)
                  then fdiv (flit 1%Q) (fsub t1 t0) else of_int 0;
           image_size := (fst (size im), snd (size im));
           detection_count := Z.of_nat (List.length ds) |}.
Proof.
  unfold detect_objects. intros E.
  apply bind_ok in E. destruct E as (im0 & _ & E).
  apply bind_ok in E. destruct E as (im & Eim & E).
  apply bind_ok in E. destruct E as (results & Em & E).
  apply bind_ok in E. destruct E as (ds & Eds & E).
  injection E as <-.
  exists im0, im, results, ds. repeat split; auto.
Qed.

End Facts.

(** C3: in every result that [detect_objects] returns, each detection's box
    has [x2 >= x1] and [y2 >= y1], its four coordinates lie in [[0,1]], and
    [width = x2 - x1], [height = y2 - y1]; the ordering and the range rest on
    the model reporting boxes clipped to the image it was given. *)
Theorem detect_objects_bbox_normalized
    {F : Type} {ops : PyFloat F} (laws : PyFloatLaws F)
    (rt : Runtime F) self image t0 t1 r d :
  resize_positive rt -> model_clips rt ->
  detect_objects rt self image t0 t1 = Py.Ok r ->
  In d (detections r) ->
  bbox_ok d.
Proof.
  intros Hresize Hclip E Hd.
  destruct (detect_objects_ok _ _ _ _ _ _ E) as (im0 & im & results & ds & Er & Em & Eds & ->).
  simpl in Hd.
  destruct (Hresize _ _ _ Er) as [Hw Hh].
  destruct results as [|r0 rest]; [injection Eds as <-; destruct Hd|].
  destruct (boxes r0) as [bs|] eqn:Eb; [|injection Eds as <-; destruct Hd].
  destruct (detect_loop_In _ _ _ _ _ _ Eds Hd) as [[] | (b & Hb & Ed)].
  eapply detection_of_bbox; eauto.
Qed.

(** C9: every result that [detect_objects] returns has
    [detection_count = len(detections)], and [fps] is [1 / processing_time]
    when [processing_time > 0] and [0] otherwise. *)
Theorem detect_objects_count_fps
    {F : Type} `{PyFloat F} (rt : Runtime F) self image t0 t1 r :
  detect_objects rt self image t0 t1 = Py.Ok r ->
  detection_count r = Z.of_nat (List.length (detections r)) /\
  (fgtb (processing_time r) (of_int 0) = true ->
     fps r = fdiv (flit 1%Q) (processing_time r)) /\
  (fgtb (processing_time r) (of_int 0) = false -> fps r = of_int 0).
Proof.
  intros E.
  destruct (detect_objects_ok _ _ _ _ _ _ E) as (im0 & im & results & ds & _ & _ & _ & ->).
  simpl. split; [reflexivity|].
  split; intros ->; reflexivity.
Qed.

End detector_facts.

(* ------------------------------------------------------------------ *)
(** * The sample runtime meets what is asked of the libraries *)

Module sample_facts.
Import yolo_detector detector_props detection_server Sample.

Lemma sample_resize_positive : resize_positive rt.
Proof.
  intros im [w h] im'. simpl.
  destruct (0 <? w) eqn:Ew; destruct (0 <? h) eqn:Eh; simpl; try discriminate.
  intros E. injection E as <-. simpl. split; lia.
Qed.

Lemma sample_model_clips : model_clips rt.
Proof.
  intros im c r0 rest bs b Hw Hh E Eb Hb. simpl in E.
  injection E as <- <-. simpl in Eb. injection Eb as <-.
  destruct Hb as [<- | []].
  unfold box_inside. simpl. destruct (size im) as [w h]. simpl in *.
  unfold Qle. simpl. repeat split; lia.
Qed.

Lemma sample_detect_good :
  detect_objects rt yolo (Str good_image) 1%Q 3%Q = Py.Ok result_good.
Proof. reflexivity. Qed.

End sample_facts.

Lemma detect_objects_bbox_normalized_witness :
  detector_props.bbox_ok Sample.detection_good.
Proof.
  apply (@detector_facts.detect_objects_bbox_normalized Q QFloat QFloatLaws Sample.rt
           Sample.yolo (yolo_detector.Str Sample.good_image) 1%Q 3%Q
           Sample.result_good Sample.detection_good).
  - exact sample_facts.sample_resize_positive.
  - exact sample_facts.sample_model_clips.
  - reflexivity.
  - simpl. left. reflexivity.
Defined.

Lemma detect_objects_count_fps_witness :
  yolo_detector.detection_count Sample.result_good = 1 /\
  yolo_detector.fps Sample.result_good = (1 # 2)%Q.
Proof.
  destruct (@detector_facts.detect_objects_count_fps Q QFloat Sample.rt
              Sample.yolo (yolo_detector.Str Sample.good_image) 1%Q 3%Q
              Sample.result_good eq_refl) as (Hc & Hpos & _).
  split; [exact Hc | exact (Hpos eq_refl)].
Defined.

(* ------------------------------------------------------------------ *)
(** * Dictionaries *)

Module dict_facts.

Section Facts.
Variable V : Type.
Implicit Types (d : Py.dict V) (k : string) (v : V).

Lemma get_set_same k v d : Py.get k (Py.set k v d) = Some v.
Proof.
  induction d as [|[k' v'] d IH]; simpl.
  - now rewrite String.eqb_refl.
  - destruct (String.eqb k k') eqn:E; simpl; rewrite E; auto.
Qed.

Lemma get_set_other k k' v d :
  k <> k' -> Py.get k' (Py.set k v d) = Py.get k' d.
Proof.
  intros Hk. induction d as [|[k0 v0] d IH]; simpl.
  - apply not_eq_sym in Hk. apply String.eqb_neq in Hk. now rewrite Hk.
  - destruct (String.eqb k k0) eqn:E; simpl.
    + apply String.eqb_eq in E. subst k0.
      apply not_eq_sym in Hk. apply String.eqb_neq in Hk. now rewrite Hk.
    + now rewrite IH.
Qed.

Lemma get_None_keys k d : Py.get k d = None -> ~ In k (Py.keys d).
Proof.
  induction d as [|[k' v'] d IH]; simpl; [tauto|].
  destruct (String.eqb_spec k k'); [discriminate|].
  intros E [->|Hin]; [congruence | exact (IH E Hin)].
Qed.

Lemma get_Some_In k v d : Py.get k d = Some v -> In (k, v) d.
Proof.
  induction d as [|[k' v'] d IH]; simpl; [discriminate|].
  destruct (String.eqb_spec k k').
  - intros E. injection E as ->. subst. now left.
  - intros E. right. auto.
Qed.

Lemma In_get k v d : NoDup (Py.keys d) -> In (k, v) d -> Py.get k d = Some v.
Proof.
  induction d as [|[k' v'] d IH]; simpl; [tauto|].
  intros Hnd [E|Hin].
  - injection E as -> ->. now rewrite String.eqb_refl.
  - inversion Hnd as [|? ? Hnotin Hnd']; subst.
    destruct (String.eqb_spec k k') as [->|_]; [|auto].
    exfalso. apply Hnotin. change (In (fst (k', v)) (map fst d)). now apply in_map.
Qed.

Lemma keys_set_present k v d :
  Py.mem k d = true -> Py.keys (Py.set k v d) = Py.keys d.
Proof.
  unfold Py.mem. induction d as [|[k' v'] d IH]; simpl; [discriminate|].
  destruct (String.eqb k k') eqn:E; simpl; [reflexivity|].
  intros Hm. now rewrite IH.
Qed.

Lemma keys_set_absent k v d :
  Py.mem k d = false -> Py.keys (Py.set k v d) = Py.keys d ++ [k].
Proof.
  unfold Py.mem. induction d as [|[k' v'] d IH]; simpl; [reflexivity|].
  destruct (String.eqb k k') eqn:E; simpl; [discriminate|].
  intros Hm. now rewrite IH.
Qed.

Lemma mem_false_keys k d : Py.mem k d = false -> ~ In k (Py.keys d).
Proof.
  unfold Py.mem. intros Hm. apply get_None_keys.
  destruct (Py.get k d); [discriminate | reflexivity].
Qed.

Lemma NoDup_set k v d : NoDup (Py.keys d) -> NoDup (Py.keys (Py.set k v d)).
Proof.
  intros Hnd. destruct (Py.mem k d) eqn:Hm.
  - now rewrite keys_set_present.
  - rewrite keys_set_absent by assumption.
    apply NoDup_app; [assumption | repeat constructor; intros [] | ].
    intros x Hx [<-|[]]. exact (mem_false_keys _ _ Hm Hx).
Qed.

Lemma keys_del_incl k d x : In x (Py.keys (Py.del k d)) -> In x (Py.keys d).
Proof.
  induction d as [|[k' v'] d IH]; simpl; [tauto|].
  destruct (String.eqb k k'); simpl; [tauto|].
  intros [->|Hin]; auto.
Qed.

Lemma NoDup_del k d : NoDup (Py.keys d) -> NoDup (Py.keys (Py.del k d)).
Proof.
  induction d as [|[k' v'] d IH]; simpl; [auto|].
  intros Hnd. inversion Hnd as [|? ? Hnotin Hnd']; subst.
  destruct (String.eqb k k'); simpl; [assumption|].
  constructor; [|auto].
  intros Hin. apply Hnotin. eapply keys_del_incl; eauto.
Qed.

Lemma get_del_other k k' d :
  k <> k' -> Py.get k' (Py.del k d) = Py.get k' d.
Proof.
  intros Hk. induction d as [|[k0 v0] d IH]; simpl; [reflexivity|].
  destruct (String.eqb_spec k k0) as [->|_]; simpl.
  - apply not_eq_sym in Hk. apply String.eqb_neq in Hk. now rewrite Hk.
  - now rewrite IH.
Qed.

Lemma get_del_same k d : NoDup (Py.keys d) -> Py.get k (Py.del k d) = None.
Proof.
  induction d as [|[k' v'] d IH]; simpl; [reflexivity|].
  intros Hnd. inversion Hnd as [|? ? Hnotin Hnd']; subst.
  destruct (String.eqb_spec k k') as [->|Hne]; simpl.
  - destruct (Py.get k' d) eqn:E; [|reflexivity].
    exfalso. apply Hnotin. apply get_Some_In in E.
    change (In (fst (k', v)) (map fst d)). now apply in_map.
  - apply String.eqb_neq in Hne. rewrite Hne. auto.
Qed.

Lemma Forall_set (P : string * V -> Prop) k v d :
  (forall k', P (k', v)) -> Forall P d -> Forall P (Py.set k v d).
Proof.
  intros Hv. induction d as [|[k' v'] d IH]; simpl; intros Hd.
  - constructor; auto.
  - inversion Hd; subst.
    destruct (String.eqb k k'); constructor; auto.
Qed.

Lemma Forall_del (P : string * V -> Prop) k d :
  Forall P d -> Forall P (Py.del k d).
Proof.
  induction d as [|[k' v'] d IH]; simpl; intros Hd; [constructor|].
  inversion Hd; subst.
  destruct (String.eqb k k'); [assumption | constructor; auto].
Qed.

End Facts.
End dict_facts.

(* ------------------------------------------------------------------ *)
(** * The socket handlers *)

Module handler_facts.
Import yolo_detector detection_server server_props dict_facts.

Section Facts.
Context {F : Type} `{PyFloat F}.
Implicit Types (st : State F) (q : Queue F) (job : Job F).

Lemma falsy_some (s : string) : s <> EmptyString -> Py.falsy (Some s) = false.
Proof. destruct s; [congruence | reflexivity]. Qed.

Lemma falsy_false (o : option string) :
  Py.falsy o = false -> exists s, o = Some s /\ s <> EmptyString.
Proof.
  destruct o as [[|c s]|]; simpl; try discriminate.
  intros _. eexists. split; [reflexivity | discriminate].
Qed.

Lemma put_nowait_room q job :
  qsize q < maxsize ->
  put_nowait q job = Py.Ok {| items := items q ++ [job];
                              unfinished_tasks := unfinished_tasks q + 1 |}.
Proof.
  intros Hq. unfold put_nowait.
  replace (maxsize <=? qsize q) with false by (symmetry; apply Z.leb_gt; lia).
  now rewrite andb_false_r.
Qed.

Lemma put_nowait_full q job :
  maxsize <= qsize q -> put_nowait q job = Py.Raise Py.Full.
Proof.
  intros Hq. unfold put_nowait.
  replace (maxsize <=? qsize q) with true by (symmetry; apply Z.leb_le; lia).
  reflexivity.
Qed.

(** The three ways out of [process_frame] once the fields, the detector
    and the session are there. *)
Lemma process_frame_live st sid data now d session_id image_data info :
  detector st = Some d ->
  f_session_id data = Some session_id -> session_id <> EmptyString ->
  f_image data = Some image_data -> image_data <> EmptyString ->
  Py.get session_id (active_sessions st) = Some info ->
  let timestamp := match f_timestamp data with Some t => t | None => now end in
  let job := (session_id, image_data, timestamp) in
  let st1 := set_sessions (Py.set session_id (bump info) (active_sessions st)) st in
  process_frame sid data now st =
    if qsize (detection_queue st) <? maxsize
    then (set_queue {| items := items (detection_queue st) ++ [job];
                       unfinished_tasks := unfinished_tasks (detection_queue st) + 1 |}
                    st1,
          [OPut job])
    else (st1, [OEmit {| event := "detection_results";
                         payload := Results (queue_full_reply session_id timestamp);
                         room := sid |}]).
Proof.
  intros Hd Hs Hs0 Hi Hi0 Hg. unfold process_frame.
  rewrite Hd, Hs, Hi, Hg, (falsy_some _ Hs0), (falsy_some _ Hi0). simpl.
  destruct (qsize (detection_queue st) <? maxsize) eqn:Eq.
  - apply Z.ltb_lt in Eq. now rewrite put_nowait_room.
  - apply Z.ltb_ge in Eq. now rewrite put_nowait_full.
Qed.

End Facts.

(** C4: a [process_frame] for a live session that finds the queue full
    returns at once with one [detection_results] reply sent to the caller's
    own room, carrying an error, no detections and zero [processing_time]
    and [fps]; nothing enters the queue, the worker is not involved, and no
    session's [last_detection] changes. *)
Theorem process_frame_queue_full
    {F : Type} `{PyFloat F} (st : State F) sid data now d
    session_id image_data info :
  detector st = Some d ->
  f_session_id data = Some session_id -> session_id <> EmptyString ->
  f_image data = Some image_data -> image_data <> EmptyString ->
  Py.get session_id (active_sessions st) = Some info ->
  maxsize <= qsize (detection_queue st) ->
  let timestamp := match f_timestamp data with Some t => t | None => now end in
  let reply := queue_full_reply session_id timestamp in
  let st' := fst (process_frame sid data now st) in
  snd (process_frame sid data now st) =
    [OEmit {| event := "detection_results"; payload := Results reply; room := sid |}] /\
  (exists message, r_error reply = Some message) /\
  r_detections reply = [] /\
  r_processing_time reply = of_int 0 /\
  r_fps reply = of_int 0 /\
  detection_queue st' = detection_queue st /\
  worker st' = worker st /\
  forall k, option_map (@last_detection F) (Py.get k (active_sessions st'))
            = option_map (@last_detection F) (Py.get k (active_sessions st)).
Proof.
  intros Hd Hs Hs0 Hi Hi0 Hg Hfull timestamp reply st'.
  subst st'. rewrite (process_frame_live st sid data now _ _ _ _ Hd Hs Hs0 Hi Hi0 Hg).
  replace (qsize (detection_queue st) <? maxsize) with false
    by (symmetry; apply Z.ltb_ge; lia).
  simpl. repeat split; eauto.
  intros k. destruct (String.eqb_spec session_id k) as [<-|Hne].
  - now rewrite get_set_same, Hg.
  - now rewrite get_set_other.
Qed.

(** C8: a [process_frame] whose payload lacks [session_id] or [image] (or
    holds an empty one) sends one [error] to the caller's own room and
    changes nothing: the state after is the state before, so nothing is
    queued, no [frame_count] moves and the registry is as it was.  With
    the detector in place the error is the validation one. *)
Theorem process_frame_missing_field
    {F : Type} `{PyFloat F} (st : State F) sid data now :
  Py.falsy (f_session_id data) = true \/ Py.falsy (f_image data) = true ->
  exists message,
    process_frame sid data now st = (st, [error_to sid message]) /\
    (detector st <> None -> message = "Session ID and image data required").
Proof.
  intros Hmiss. unfold process_frame.
  destruct (detector st) as [d|].
  - exists "Session ID and image data required". split; [|reflexivity].
    destruct Hmiss as [-> | ->]; simpl; [reflexivity|].
    now rewrite orb_true_r.
  - exists "Detector not initialized". split; [reflexivity | congruence].
Qed.

(** C7: a [join_detection_session] for a [session_id] that is already in
    the registry replaces its entry: afterwards the entry has the joining
    connection as [sid], the time of this join as [joined_at],
    [frame_count = 0] and no [last_detection]; the registry keeps the same
    keys, each once, so the session has this one entry and one [sid]. *)
Theorem rejoin_replaces_entry
    {F : Type} `{PyFloat F} (st : State F) sid0 data now session_id old :
  d_session_id data = Some session_id -> session_id <> EmptyString ->
  Py.get session_id (active_sessions st) = Some old ->
  registry_ok st ->
  let st' := fst (join_detection_session sid0 data now st) in
  Py.get session_id (active_sessions st')
    = Some {| sid := sid0; joined_at := now;
              frame_count := 0; last_detection := None |} /\
  Py.keys (active_sessions st') = Py.keys (active_sessions st) /\
  registry_ok st' /\
  forall info, In (session_id, info) (active_sessions st') -> sid info = sid0.
Proof.
  intros Hs Hs0 Hold Hreg st'. subst st'.
  unfold join_detection_session. rewrite Hs, (falsy_some _ Hs0). simpl.
  assert (Hkeys : forall v, Py.keys (Py.set session_id v (active_sessions st))
                            = Py.keys (active_sessions st)).
  { intros v. apply keys_set_present. unfold Py.mem. now rewrite Hold. }
  assert (Hreg' : forall v, NoDup (Py.keys (Py.set session_id v (active_sessions st)))).
  { intros v. rewrite Hkeys. exact Hreg. }
  split; [apply get_set_same|].
  split; [apply Hkeys|].
  split; [apply Hreg'|].
  intros info Hin. apply (In_get _ _ _ _ (Hreg' _)) in Hin.
  rewrite get_set_same in Hin. now injection Hin as <-.
Qed.

End handler_facts.

(* ------------------------------------------------------------------ *)
(** * The worker and runs of the whole service *)

Module run_facts.
Import yolo_detector detection_server server_props dict_facts handler_facts.

(** Case analysis on a [match] of the goal whose scrutinee holds no other
    [match]: the innermost ones go first. *)
Ltac break_match :=
  match goal with
  | |- context [match ?x with _ => _ end] =>
      lazymatch x with
      | context [match _ with _ => _ end] => fail
      | _ => destruct x eqn:?
      end
  end.

Ltac arith_bools :=
  repeat match goal with
         | E : (_ <? _) = true |- _ => apply Z.ltb_lt in E
         | E : (_ <? _) = false |- _ => apply Z.ltb_ge in E
         | E : (_ <=? _) = true |- _ => apply Z.leb_le in E
         | E : (_ <=? _) = false |- _ => apply Z.leb_gt in E
         | E : (_ && _) = true |- _ => apply andb_true_iff in E; destruct E
         | E : Py.Ok _ = Py.Ok _ |- _ => injection E as <-
         | E : Py.Ok _ = Py.Raise _ |- _ => discriminate E
         | E : Py.Raise _ = Py.Ok _ |- _ => discriminate E
         | E : negb _ = true |- _ => apply negb_true_iff in E
         | E : negb _ = false |- _ => apply negb_false_iff in E
         end.

Ltac unfold_handlers :=
  unfold connect, disconnect, join_detection_session, process_frame,
    get_session_stats, worker_fetch, worker_publish, worker_except.

Section Facts.
Context {F : Type} `{PyFloat F}.
Variable rt : Runtime F.
Implicit Types (st : State F) (q : Queue F) (job : Job F) (ev : Event F).

Lemma step_registry_ok ev st :
  registry_ok st -> registry_ok (fst (step rt ev st)).
Proof.
  unfold registry_ok. intros Hreg.
  destruct ev; simpl; unfold_handlers;
    repeat break_match; simpl; auto using NoDup_set, NoDup_del.
Qed.

Lemma step_untagged ev st :
  untagged st -> untagged (fst (step rt ev st)).
Proof.
  unfold untagged. intros Hw.
  destruct ev; simpl; unfold_handlers;
    repeat (break_match; simpl); simpl in *;
    repeat match goal with
           | E : worker _ = _ |- _ => rewrite E in *
           end; auto; try congruence.
Qed.

Local Arguments Z.of_nat : simpl never.
Local Arguments Z.add : simpl never.
Local Arguments Z.sub : simpl never.

Lemma step_queue_ok ev st :
  queue_ok st -> queue_ok (fst (step rt ev st)).
Proof.
  unfold queue_ok, qsize. intros [Hw Hq].
  destruct ev; simpl; unfold_handlers; unfold put_nowait, get, task_done, empty, qsize;
    repeat (break_match; simpl); arith_bools; simpl in *;
    repeat match goal with
           | E : items _ = _ |- _ => rewrite E in *
           | E : worker _ = _ |- _ => rewrite E in *
           | |- context [List.length (_ ++ _)] => rewrite length_app
           end; simpl in *;
    try (split; [congruence | lia]); try lia.
Qed.

(** ** Runs *)

Lemma run_cons ev evs st :
  run rt (ev :: evs) st =
    (fst (run rt evs (fst (step rt ev st))),
     snd (step rt ev st) ++ snd (run rt evs (fst (step rt ev st)))).
Proof.
  simpl. destruct (step rt ev st) as [st1 o1]. simpl.
  destruct (run rt evs st1) as [st2 o2]. reflexivity.
Qed.

Lemma run_preserves (P : State F -> Prop) :
  (forall ev st, P st -> P (fst (step rt ev st))) ->
  forall evs st, P st -> P (fst (run rt evs st)).
Proof.
  intros Hstep. induction evs as [|ev evs IH]; intros st Hst.
  - exact Hst.
  - rewrite run_cons. simpl. apply IH, Hstep, Hst.
Qed.

Lemma initial_queue_ok (d : option (YOLODetector F)) : queue_ok (initial d).
Proof. split; [discriminate | simpl; unfold qsize; simpl; lia]. Qed.

(** From the start of the service on, no exception leaves the worker's
    loop: the thread is never ended. *)
Lemma worker_never_stops (d : option (YOLODetector F)) evs :
  worker (fst (run rt evs (initial d))) <> Stopped.
Proof.
  apply (run_preserves (fun st => queue_ok st) step_queue_ok evs (initial d) (initial_queue_ok d)).
Qed.

(** ** [last_detection] *)

Lemma step_no_last_detection ev st :
  no_last_detection (active_sessions st) ->
  no_last_detection (active_sessions (fst (step rt ev st))).
Proof.
  unfold no_last_detection. intros Hd.
  destruct ev; simpl; unfold_handlers;
    repeat (break_match; simpl); auto using Forall_del;
    apply Forall_set; auto; intros k'; simpl;
    match goal with
    | E : Py.get _ _ = Some ?info |- _ =>
        apply get_Some_In in E; rewrite Forall_forall in Hd; exact (Hd _ E)
    end.
Qed.

Lemma in_emits (o : list (Obs F)) e : In e (emits o) <-> In (OEmit e) o.
Proof.
  unfold emits. rewrite in_flat_map. split.
  - intros (x & Hx & Hin). destruct x; simpl in Hin; try tauto.
    destruct Hin as [<-|[]]. exact Hx.
  - intros Hin. exists (OEmit e). split; [exact Hin | now left].
Qed.

Lemma step_stats_null ev st e s :
  no_last_detection (active_sessions st) ->
  In (OEmit e) (snd (step rt ev st)) ->
  payload e = Stats s ->
  s_last_detection s = None.
Proof.
  unfold no_last_detection. intros Hd. rewrite Forall_forall in Hd.
  destruct ev; simpl; unfold_handlers; unfold error_to;
    repeat (break_match; simpl); intros Hin Hp;
    repeat match goal with
           | Hin : _ \/ _ |- _ => destruct Hin as [Hin|Hin]
           | Hin : False |- _ => destruct Hin
           | Hin : OEmit _ = OEmit _ |- _ => injection Hin as <-
           | Hin : _ = OEmit _ |- _ => discriminate Hin
           end;
    simpl in Hp; try discriminate Hp.
  injection Hp as <-. simpl.
  match goal with
  | E : Py.get _ _ = Some _ |- _ => apply get_Some_In in E; exact (Hd _ E)
  end.
Qed.

Lemma run_stats_null evs : forall st e s,
  no_last_detection (active_sessions st) ->
  In (OEmit e) (snd (run rt evs st)) ->
  payload e = Stats s ->
  s_last_detection s = None.
Proof.
  induction evs as [|ev evs IH]; intros st e s Hd Hin Hp.
  - destruct Hin.
  - rewrite run_cons in Hin. simpl in Hin. apply in_app_or in Hin.
    destruct Hin as [Hin|Hin].
    + exact (step_stats_null ev st e s Hd Hin Hp).
    + exact (IH _ e s (step_no_last_detection ev st Hd) Hin Hp).
Qed.

End Facts.

(** C10: a session's [last_detection] is [None] when it joins and nothing
    writes it afterwards.  After any sequence of handler calls and worker
    steps from the start of the service, every session in the registry has
    [last_detection = None], and every [session_stats] message sent on the
    way reports [last_detection] as [None]. *)
Theorem last_detection_stays_null
    {F : Type} `{PyFloat F} (rt : Runtime F) (d : option (YOLODetector F)) evs :
  no_last_detection (active_sessions (fst (run rt evs (initial d)))) /\
  forall e s,
    In e (emits (snd (run rt evs (initial d)))) ->
    payload e = Stats s ->
    s_last_detection s = None.
Proof.
  assert (H0 : no_last_detection (active_sessions (initial d))) by constructor.
  split.
  - apply (run_preserves rt (fun st => no_last_detection (active_sessions st))
             (step_no_last_detection rt) evs (initial d) H0).
  - intros e s Hin Hp. apply in_emits in Hin.
    exact (run_stats_null rt evs (initial d) e s H0 Hin Hp).
Qed.

End run_facts.

(* ------------------------------------------------------------------ *)
(** * Order of delivery *)

Module order_facts.
Import yolo_detector detection_server server_props dict_facts handler_facts run_facts.

Lemma subseq_refl {A} (l : list A) : subseq l l.
Proof. induction l; [apply subseq_nil | apply subseq_keep; assumption]. Qed.

Lemma subseq_nil_l {A} (l : list A) : subseq [] l.
Proof. induction l; [apply subseq_nil | apply subseq_skip; assumption]. Qed.

Lemma subseq_app {A} (l1 l2 l3 l4 : list A) :
  subseq l1 l2 -> subseq l3 l4 -> subseq (l1 ++ l3) (l2 ++ l4).
Proof.
  induction 1 as [|x l1 l2 _ IH|x l1 l2 _ IH]; simpl; intros H34.
  - exact H34.
  - apply subseq_skip, IH, H34.
  - apply subseq_keep, IH, H34.
Qed.

Lemma subseq_trans {A} (l1 l2 l3 : list A) :
  subseq l1 l2 -> subseq l2 l3 -> subseq l1 l3.
Proof.
  intros H12 H23. revert l1 H12.
  induction H23 as [|x l2 l3 H23 IH|x l2 l3 H23 IH]; intros l1 H12.
  - exact H12.
  - apply subseq_skip. auto.
  - inversion H12; subst; [apply subseq_skip | apply subseq_keep]; auto.
Qed.

Section Facts.
Context {F : Type} `{PyFloat F}.
Variable rt : Runtime F.
Implicit Types (st : State F) (o : list (Obs F)).

Lemma puts_app o1 o2 : puts (o1 ++ o2) = puts o1 ++ puts o2.
Proof. apply flat_map_app. Qed.

Lemma gets_app o1 o2 : gets (o1 ++ o2) = gets o1 ++ gets o2.
Proof. apply flat_map_app. Qed.

Lemma emits_app o1 o2 : emits (o1 ++ o2) = emits o1 ++ emits o2.
Proof. apply flat_map_app. Qed.

Lemma published_app s o1 o2 :
  published s (o1 ++ o2) = published s o1 ++ published s o2.
Proof. unfold published. now rewrite emits_app, flat_map_app. Qed.

Lemma skipped_app s o1 o2 :
  skipped s (o1 ++ o2) = skipped s o1 ++ skipped s o2.
Proof. unfold skipped. now rewrite emits_app, flat_map_app. Qed.

Lemma for_session_app s (l1 l2 : list (Job F)) :
  for_session s (l1 ++ l2) = for_session s l1 ++ for_session s l2.
Proof. apply filter_app. Qed.

(** The queue hands jobs out in the order it took them in. *)
Lemma step_fifo ev st :
  items (detection_queue st) ++ puts (snd (step rt ev st))
  = gets (snd (step rt ev st)) ++ items (detection_queue (fst (step rt ev st))).
Proof.
  destruct ev; simpl; unfold_handlers; unfold put_nowait, get, task_done, empty, error_to;
    repeat (break_match; simpl); arith_bools; simpl;
    rewrite ?app_nil_r; try reflexivity; try congruence.
Qed.

Lemma run_fifo evs : forall st,
  items (detection_queue st) ++ puts (snd (run rt evs st))
  = gets (snd (run rt evs st)) ++ items (detection_queue (fst (run rt evs st))).
Proof.
  induction evs as [|ev evs IH]; intros st.
  - simpl. now rewrite app_nil_r.
  - rewrite run_cons. simpl. rewrite puts_app, gets_app.
    rewrite app_assoc, step_fifo, <- !app_assoc. f_equal. apply IH.
Qed.

(** One step keeps, for each session, what was published followed by what
    is still pending within what was pending followed by what was put. *)
Lemma step_order s ev st :
  subseq
    (map (@r_timestamp F) (published s (snd (step rt ev st)))
     ++ pending s (fst (step rt ev st)))
    (pending s st
     ++ map (@job_timestamp F) (for_session s (puts (snd (step rt ev st))))).
Proof.
  unfold pending, held, published, for_session.
  destruct st as [det [its unf] sess w].
  destruct ev; simpl; unfold_handlers; unfold put_nowait, get, task_done, empty, error_to;
    simpl;
    repeat (first [rewrite filter_app | rewrite map_app | break_match]; simpl);
    arith_bools; unfold job_session in *; simpl in *; rewrite ?app_nil_r;
    try congruence;
    repeat first [apply subseq_refl | apply subseq_keep | apply subseq_skip].
Qed.

Lemma run_order s evs : forall st,
  subseq
    (map (@r_timestamp F) (published s (snd (run rt evs st)))
     ++ pending s (fst (run rt evs st)))
    (pending s st
     ++ map (@job_timestamp F) (for_session s (puts (snd (run rt evs st))))).
Proof.
  induction evs as [|ev evs IH]; intros st.
  - simpl. rewrite app_nil_r. apply subseq_refl.
  - rewrite run_cons. simpl.
    rewrite published_app, puts_app, for_session_app, !map_app.
    rewrite <- app_assoc.
    eapply subseq_trans.
    + apply subseq_app; [apply subseq_refl | apply IH].
    + rewrite !app_assoc. apply subseq_app; [apply step_order | apply subseq_refl].
Qed.

Lemma subseq_prefix {A} (l1 l2 l3 : list A) :
  subseq (l1 ++ l2) l3 -> subseq l1 l3.
Proof.
  apply subseq_trans.
  rewrite <- (app_nil_r l1) at 1.
  apply subseq_app; [apply subseq_refl | apply subseq_nil_l].
Qed.

End Facts.

(** C5: the queue is first in, first out, and one worker takes and
    publishes one job at a time.  Over any sequence of handler calls and
    worker steps from the start of the service, the jobs taken from the
    queue followed by those still in it are the jobs put, in the order
    they were put; and for each session the timestamps of the results
    published to it follow the order in which its frames were put,
    possibly with some left out.  Across sessions nothing beyond the
    order of the queue is stated. *)
Theorem results_follow_submission_order
    {F : Type} `{PyFloat F} (rt : Runtime F) (d : option (YOLODetector F))
    evs session_id :
  let st' := fst (run rt evs (initial d)) in
  let obs := snd (run rt evs (initial d)) in
  puts obs = gets obs ++ items (detection_queue st') /\
  subseq (map (@r_timestamp F) (published session_id obs))
         (map (@job_timestamp F) (for_session session_id (puts obs))).
Proof.
  intros st' obs. split.
  - exact (run_fifo rt evs (initial d)).
  - apply (subseq_prefix _ (pending session_id st')).
    exact (run_order rt session_id evs (initial d)).
Qed.

End order_facts.

(* ------------------------------------------------------------------ *)
(** * Counting frames *)

Module count_facts.
Import yolo_detector detection_server server_props dict_facts handler_facts
  run_facts order_facts.

Section Facts.
Context {F : Type} `{PyFloat F}.
Variable rt : Runtime F.
Implicit Types (st : State F) (o : list (Obs F)) (ev : Event F).

Lemma process_frame_cases st sid0 data now :
  (exists message, process_frame sid0 data now st = (st, [error_to sid0 message]))
  \/ (exists d s image_data info,
        detector st = Some d /\
        f_session_id data = Some s /\ s <> EmptyString /\
        f_image data = Some image_data /\ image_data <> EmptyString /\
        Py.get s (active_sessions st) = Some info).
Proof.
  unfold process_frame.
  destruct (detector st) as [d|]; [|now left; eexists].
  destruct (Py.falsy (f_session_id data)) eqn:Es; [now left; eexists|].
  destruct (Py.falsy (f_image data)) eqn:Ei; [now left; eexists|].
  apply falsy_false in Es. destruct Es as (s & Es & Hs).
  apply falsy_false in Ei. destruct Ei as (i & Ei & Hi).
  rewrite Es, Ei. simpl.
  destruct (Py.get s (active_sessions st)) as [info|] eqn:Eg; [|now left; eexists].
  right. exists d, s, i, info. auto 10.
Qed.

(** The worker leaves the registry alone, puts nothing in the queue and
    sends no error-tagged result. *)
Lemma worker_step_quiet ev st :
  match ev with Fetch _ _ _ | Publish => True | _ => False end ->
  untagged st ->
  active_sessions (fst (step rt ev st)) = active_sessions st /\
  puts (snd (step rt ev st)) = [] /\
  forall s, skipped s (snd (step rt ev st)) = [].
Proof.
  unfold untagged, skipped. destruct st as [det [its unf] sess w].
  destruct ev; simpl; try tauto; intros _ Hw;
    unfold_handlers; unfold get, task_done, empty; simpl;
    repeat (break_match; simpl); subst; simpl in *;
    try rewrite Hw; auto; try discriminate.
Qed.

Lemma session_of_sid_In sid0 (d : Py.dict (SessionInfo F)) k :
  session_of_sid sid0 d = Some k ->
  exists info, In (k, info) d /\ sid info = sid0.
Proof.
  induction d as [|[k' info'] d IH]; simpl; [discriminate|].
  destruct (String.eqb_spec (sid info') sid0) as [E|_].
  - intros E'. injection E' as <-. exists info'. split; [now left | exact E].
  - intros E'. destruct (IH E') as (info & Hin & Hs).
    exists info. split; [now right | exact Hs].
Qed.

(** What one step adds to the [frame_count] of a session that the step
    neither joins anew nor removes: one for each of its frames that went
    into the queue, and one for each that the full queue turned away. *)
Lemma step_frame_count s info ev st :
  registry_ok st -> untagged st ->
  Py.get s (active_sessions st) = Some info ->
  spares s (sid info) ev = true ->
  exists info',
    Py.get s (active_sessions (fst (step rt ev st))) = Some info' /\
    sid info' = sid info /\
    frame_count info' =
      frame_count info
      + Z.of_nat (List.length (for_session s (puts (snd (step rt ev st)))))
      + Z.of_nat (List.length (skipped s (snd (step rt ev st)))).
Proof.
  intros Hreg Hunt Hget Hsp.
  assert (Hsame : exists info', Py.get s (active_sessions st) = Some info' /\
            sid info' = sid info /\
            frame_count info' = frame_count info + Z.of_nat 0 + Z.of_nat 0).
  { exists info. repeat split; auto. simpl. lia. }
  destruct ev as [c|sid0|sid0 data now|sid0 data now|sid0 data now|t0 t1 t2|].
  - exact Hsame.
  - simpl in *. unfold disconnect.
    destruct (session_of_sid sid0 (active_sessions st)) as [k|] eqn:Ek; [|exact Hsame].
    destruct (Py.falsy (Some k)); [exact Hsame|]. simpl.
    destruct (session_of_sid_In _ _ _ Ek) as (info0 & Hin & Hsid).
    apply (In_get _ _ _ _ Hreg) in Hin.
    destruct (String.eqb_spec k s) as [->|Hne].
    + rewrite Hget in Hin. injection Hin as <-.
      rewrite Hsid, String.eqb_refl in Hsp. discriminate.
    + rewrite get_del_other by assumption. exact Hsame.
  - simpl in *. unfold join_detection_session.
    destruct (d_session_id data) as [s0|] eqn:Ed; [|exact Hsame].
    destruct (Py.falsy (Some s0)); [exact Hsame|]. simpl.
    destruct (String.eqb_spec s0 s) as [E|Hne]; [discriminate|].
    rewrite get_set_other by assumption. exact Hsame.
  - simpl step.
    destruct (process_frame_cases st sid0 data now)
      as [(message & ->) | (d & s0 & image_data & info0 & Hd & Hs & Hs0 & Hi & Hi0 & Hg)];
      [exact Hsame|].
    rewrite (process_frame_live st sid0 data now _ _ _ _ Hd Hs Hs0 Hi Hi0 Hg).
    unfold for_session, skipped, job_session.
    destruct (qsize (detection_queue st) <? maxsize);
      destruct (String.eqb_spec s0 s) as [->|Hne]; simpl;
      try rewrite String.eqb_refl;
      try (apply String.eqb_neq in Hne; rewrite Hne);
      try (apply String.eqb_neq in Hne);
      try (rewrite get_set_other by assumption; exact Hsame);
      rewrite get_set_same; rewrite Hget in Hg; injection Hg as <-;
      eexists; (split; [reflexivity|]); simpl; split; auto; lia.
  - simpl. unfold get_session_stats.
    destruct (d_session_id data) as [s0|]; [|exact Hsame].
    destruct (Py.get s0 (active_sessions st)); exact Hsame.
  - destruct (worker_step_quiet (Fetch t0 t1 t2) st I Hunt) as (-> & -> & ->).
    exact Hsame.
  - destruct (worker_step_quiet (@Publish F) st I Hunt) as (-> & -> & ->).
    exact Hsame.
Qed.

Lemma run_frame_count s evs : forall st info,
  registry_ok st -> untagged st ->
  Py.get s (active_sessions st) = Some info ->
  forallb (spares s (sid info)) evs = true ->
  exists info',
    Py.get s (active_sessions (fst (run rt evs st))) = Some info' /\
    sid info' = sid info /\
    frame_count info' =
      frame_count info
      + Z.of_nat (List.length (for_session s (puts (snd (run rt evs st)))))
      + Z.of_nat (List.length (skipped s (snd (run rt evs st)))).
Proof.
  induction evs as [|ev evs IH]; intros st info Hreg Hunt Hget Hsp.
  - exists info. simpl. repeat split; auto. lia.
  - simpl in Hsp. apply andb_true_iff in Hsp. destruct Hsp as [Hev Hevs].
    destruct (step_frame_count s info ev st Hreg Hunt Hget Hev) as (info1 & Hg1 & Hs1 & Hc1).
    rewrite <- Hs1 in Hevs.
    destruct (IH _ info1 (step_registry_ok rt ev st Hreg) (step_untagged rt ev st Hunt)
                Hg1 Hevs) as (info2 & Hg2 & Hs2 & Hc2).
    exists info2. rewrite run_cons. simpl.
    rewrite puts_app, for_session_app, skipped_app, !length_app.
    repeat split; [exact Hg2 | congruence | lia].
Qed.

End Facts.

(** C2, amended: [frame_count] counts every frame that passed the field
    and session checks, whether [put_nowait] then took it or the full
    queue turned it away.  For a live session, over any sequence of
    handler calls and worker steps that neither joins the session anew nor
    disconnects its owner, [frame_count] grows by the number of its frames
    put in the queue plus the number of its queue-full replies. *)
Theorem frame_count_counts_queued_and_skipped
    {F : Type} `{PyFloat F} (rt : Runtime F) (st : State F) evs session_id info :
  registry_ok st -> untagged st ->
  Py.get session_id (active_sessions st) = Some info ->
  forallb (spares session_id (sid info)) evs = true ->
  exists info',
    Py.get session_id (active_sessions (fst (run rt evs st))) = Some info' /\
    frame_count info' =
      frame_count info
      + Z.of_nat (List.length (for_session session_id (puts (snd (run rt evs st)))))
      + Z.of_nat (List.length (skipped session_id (snd (run rt evs st)))).
Proof.
  intros Hreg Hunt Hget Hsp.
  destruct (run_frame_count rt session_id evs st info Hreg Hunt Hget Hsp)
    as (info' & Hg & _ & Hc).
  exists info'. split; assumption.
Qed.

End count_facts.

(* ------------------------------------------------------------------ *)
(** * One pass of the worker *)

Module worker_facts.
Import yolo_detector detection_server server_props dict_facts handler_facts
  run_facts.

Local Arguments Z.of_nat : simpl never.

Section Facts.
Context {F : Type} `{PyFloat F}.
Variable rt : Runtime F.
Implicit Types (st : State F) (q : Queue F).

Lemma task_done_counted q :
  0 < unfinished_tasks q ->
  task_done q = Py.Ok {| items := items q;
                         unfinished_tasks := unfinished_tasks q - 1 |}.
Proof.
  intros Hq. unfold task_done.
  replace (unfinished_tasks q - 1 <? 0) with false
    by (symmetry; apply Z.ltb_ge; lia).
  reflexivity.
Qed.

(** With one taken job on the books, the handler of [except Exception]
    returns to the top of the loop. *)
Lemma worker_except_resumes st :
  qsize (detection_queue st) + 1 <= unfinished_tasks (detection_queue st) ->
  worker (worker_except st) = Waiting /\
  items (detection_queue (worker_except st)) = items (detection_queue st) /\
  active_sessions (worker_except st) = active_sessions st.
Proof.
  intros Hq. unfold worker_except.
  assert (0 <= qsize (detection_queue st)) by (unfold qsize; lia).
  destruct (negb (empty (detection_queue st))); [|now simpl].
  rewrite task_done_counted by lia. now simpl.
Qed.

Lemma disconnect_removes st sid0 s :
  registry_ok st ->
  session_of_sid sid0 (active_sessions st) = Some s -> s <> EmptyString ->
  Py.mem s (active_sessions (fst (disconnect sid0 st))) = false.
Proof.
  intros Hreg Hs Hs0. unfold disconnect. rewrite Hs, (falsy_some _ Hs0). simpl.
  unfold Py.mem. now rewrite get_del_same.
Qed.

End Facts.

(** C1, amended: for every job the worker takes from the queue, an error
    raised while decoding or detecting is caught, the job is given up with
    nothing published for it, and the loop goes on: the worker is back at
    the top of its loop, never ended by a bad frame.  A job whose detection
    succeeds gets exactly one [detection_results] message, sent to its
    session's room, when the session is still registered. *)
Theorem worker_pass
    {F : Type} `{PyFloat F} (rt : Runtime F) (st : State F) t0 t1 t2
    d session_id image_data timestamp rest :
  queue_ok st ->
  worker st = Waiting ->
  detector st = Some d ->
  items (detection_queue st) = (session_id, image_data, timestamp) :: rest ->
  let st' := fst (detection_worker rt t0 t1 t2 st) in
  let obs := snd (detection_worker rt t0 t1 t2 st) in
  worker st' = Waiting /\
  items (detection_queue st') = rest /\
  gets obs = [(session_id, image_data, timestamp)] /\
  active_sessions st' = active_sessions st /\
  emits obs =
    match detect_objects rt d (Str image_data) t0 t1 with
    | Py.Ok results =>
        if Py.mem session_id (active_sessions st)
        then [ {| event := "detection_results";
                  payload := Results (with_metadata results session_id timestamp t2);
                  room := session_id |} ]
        else []
    | Py.Raise _ => []
    end.
Proof.
  intros [_ Hq] Hw Hd Hi st' obs. subst st' obs.
  destruct st as [det [its unf] sess w]. simpl in *. subst.
  unfold qsize in Hq. simpl in Hq.
  unfold detection_worker, worker_fetch, get. simpl.
  set (st0 := {| detector := Some d;
                 detection_queue := {| items := rest; unfinished_tasks := unf |};
                 active_sessions := sess; worker := Waiting |}).
  destruct (detect_objects rt d (Str image_data) t0 t1) as [results|e].
  - unfold worker_publish. simpl.
    rewrite task_done_counted by (simpl; lia). simpl.
    destruct (Py.mem session_id sess); simpl; auto.
  - assert (Hex : worker (worker_except st0) = Waiting /\
                  items (detection_queue (worker_except st0)) = rest /\
                  active_sessions (worker_except st0) = sess).
    { apply (worker_except_resumes st0). unfold qsize. simpl. lia. }
    destruct Hex as (Ew & Ei & Es).
    assert (Hidle : forall st1 : State F, worker st1 = Waiting ->
                      worker_publish st1 = (st1, [])).
    { intros st1 E1. unfold worker_publish. now rewrite E1. }
    destruct e; simpl; auto;
      change (set_queue {| items := rest; unfinished_tasks := unf |} _) with st0;
      rewrite (Hidle _ Ew); simpl; auto.
Qed.

(** C6: when the session of the result the worker holds is no longer in
    the registry at the time of publication (its transport disconnected
    while the job was queued or being processed), the locked section finds
    it absent, nothing is sent, no exception is raised, and the worker
    goes back to the top of its loop. *)
Theorem publish_drops_for_removed_session
    {F : Type} `{PyFloat F} (st : State F) session_id results :
  queue_ok st ->
  worker st = Holding session_id results ->
  Py.mem session_id (active_sessions st) = false ->
  snd (worker_publish st) = [] /\
  worker (fst (worker_publish st)) = Waiting /\
  items (detection_queue (fst (worker_publish st))) = items (detection_queue st) /\
  active_sessions (fst (worker_publish st)) = active_sessions st.
Proof.
  intros [_ Hq] Hw Hm. unfold worker_publish. rewrite Hw, Hm.
  rewrite Hw in Hq. simpl in Hq.
  assert (0 <= qsize (detection_queue st)) by (unfold qsize; lia).
  rewrite task_done_counted by lia. simpl. auto.
Qed.

End worker_facts.

(* ------------------------------------------------------------------ *)
(** * The theorems at sample inputs *)

Module sample_runs.
Import yolo_detector detection_server server_props Sample.

Lemma st_full_registry_ok : registry_ok st_full.
Proof. unfold registry_ok. simpl. repeat constructor. intros []. Qed.

Lemma st_bad_queue_ok : queue_ok st_bad.
Proof. split; [discriminate | vm_compute; discriminate]. Qed.

Lemma st_inflight_queue_ok : queue_ok (fst (disconnect "sid-A" st_inflight)).
Proof. split; [discriminate | vm_compute; discriminate]. Qed.

(** Two frames of [s1] go through the queue and the worker: their results
    come out in the order the frames went in, and both were counted. *)
Example two_frames_in_order :
  map (@r_timestamp Q) (published "s1" (snd (run rt evs_two (initial (Some yolo)))))
    = [1%Q; 2%Q] /\
  map (@job_timestamp Q) (puts (snd (run rt evs_two (initial (Some yolo)))))
    = [1%Q; 2%Q] /\
  option_map (@frame_count Q)
    (Py.get "s1" (active_sessions (fst (run rt evs_two (initial (Some yolo))))))
    = Some 2.
Proof. vm_compute. auto. Qed.

End sample_runs.

(** C1 as worded fails: the job at the head of the queue of
    [Sample.st_bad] belongs to the live session [s1], its image does not
    decode, and the pass of the worker sends nothing at all. *)
Lemma worker_failure_not_published :
  ~ server_props.failure_is_published Sample.rt Sample.st_bad 1%Q 3%Q 4%Q.
Proof.
  intros Hc.
  destruct (Hc Sample.yolo "s1" Sample.bad_image 7%Q []
              (Py.LibraryError "cannot identify image file")
              eq_refl eq_refl eq_refl eq_refl eq_refl) as (m & r & Hin & _).
  vm_compute in Hin. exact Hin.
Qed.

Lemma worker_pass_witness :
  detection_server.worker
    (fst (detection_server.detection_worker Sample.rt 1%Q 3%Q 4%Q Sample.st_bad))
  = detection_server.Waiting /\
  detection_server.emits
    (snd (detection_server.detection_worker Sample.rt 1%Q 3%Q 4%Q Sample.st_bad))
  = [].
Proof.
  destruct (worker_facts.worker_pass Sample.rt Sample.st_bad 1%Q 3%Q 4%Q
              Sample.yolo "s1" Sample.bad_image 7%Q []
              sample_runs.st_bad_queue_ok eq_refl eq_refl eq_refl)
    as (Hw & _ & _ & _ & He).
  split; [exact Hw | exact He].
Defined.

(** C2 as worded fails: the queue of [Sample.st_full] is full, the frame
    is turned away, and the [frame_count] of [s1] has gone from 0 to 1. *)
Lemma queue_full_frame_is_counted :
  ~ server_props.rejection_keeps_count Sample.st_full "sid-A" Sample.frame_s1 12%Q.
Proof.
  intros Hc.
  assert (Hfull : detection_server.maxsize
                   <= detection_server.qsize
                        (detection_server.detection_queue Sample.st_full))
    by (vm_compute; discriminate).
  specialize (Hc "s1" Sample.good_image Sample.session_s1
                ltac:(discriminate) eq_refl ltac:(discriminate)
                eq_refl ltac:(discriminate) eq_refl Hfull).
  vm_compute in Hc. discriminate Hc.
Qed.

Lemma frame_count_counts_queued_and_skipped_witness :
  exists info',
    Py.get "s1" (detection_server.active_sessions
                   (fst (detection_server.run Sample.rt Sample.evs_full Sample.st_full)))
      = Some info' /\
    detection_server.frame_count info' =
      0 + Z.of_nat (List.length (detection_server.for_session "s1"
             (detection_server.puts
                (snd (detection_server.run Sample.rt Sample.evs_full Sample.st_full)))))
        + Z.of_nat (List.length (detection_server.skipped "s1"
             (snd (detection_server.run Sample.rt Sample.evs_full Sample.st_full)))).
Proof.
  exact (count_facts.frame_count_counts_queued_and_skipped Sample.rt Sample.st_full
           Sample.evs_full "s1" Sample.session_s1
           sample_runs.st_full_registry_ok I eq_refl eq_refl).
Defined.

Lemma process_frame_queue_full_witness :
  snd (detection_server.process_frame "sid-A" Sample.frame_s1 12%Q Sample.st_full)
  = [ detection_server.OEmit
        {| detection_server.event := "detection_results";
           detection_server.payload :=
             detection_server.Results (detection_server.queue_full_reply "s1" 11%Q);
           detection_server.room := "sid-A" |} ].
Proof.
  destruct (handler_facts.process_frame_queue_full Sample.st_full "sid-A"
              Sample.frame_s1 12%Q Sample.yolo "s1" Sample.good_image Sample.session_s1
              eq_refl eq_refl ltac:(discriminate) eq_refl ltac:(discriminate) eq_refl
              ltac:(vm_compute; discriminate)) as (Ho & _).
  exact Ho.
Defined.

Lemma publish_drops_for_removed_session_witness :
  snd (detection_server.worker_publish
         (fst (detection_server.disconnect "sid-A" Sample.st_inflight))) = [] /\
  detection_server.worker
    (fst (detection_server.worker_publish
            (fst (detection_server.disconnect "sid-A" Sample.st_inflight))))
  = detection_server.Waiting.
Proof.
  destruct (worker_facts.publish_drops_for_removed_session
              (fst (detection_server.disconnect "sid-A" Sample.st_inflight))
              "s1" (detection_server.with_metadata Sample.result_good "s1" 7%Q 4%Q)
              sample_runs.st_inflight_queue_ok eq_refl eq_refl) as (Ho & Hw & _).
  split; [exact Ho | exact Hw].
Defined.

Lemma rejoin_replaces_entry_witness :
  Py.get "s1" (detection_server.active_sessions
                 (fst (detection_server.join_detection_session "sid-B"
                         {| detection_server.d_session_id := Some "s1" |} 200%Q
                         Sample.st_full)))
  = Some {| detection_server.sid := "sid-B";
            detection_server.joined_at := 200%Q;
            detection_server.frame_count := 0;
            detection_server.last_detection := None |}.
Proof.
  destruct (handler_facts.rejoin_replaces_entry Sample.st_full "sid-B"
              {| detection_server.d_session_id := Some "s1" |} 200%Q "s1"
              Sample.session_s1 eq_refl ltac:(discriminate) eq_refl
              sample_runs.st_full_registry_ok) as (Hg & _).
  exact Hg.
Defined.

Lemma process_frame_missing_field_witness :
  exists message,
    detection_server.process_frame "sid-A" Sample.frame_no_image 12%Q Sample.st_full
    = (Sample.st_full, [detection_server.error_to "sid-A" message]) /\
    (detection_server.detector Sample.st_full <> None ->
     message = "Session ID and image data required").
Proof.
  exact (handler_facts.process_frame_missing_field Sample.st_full "sid-A"
           Sample.frame_no_image 12%Q (or_intror eq_refl)).
Defined.

(* ------------------------------------------------------------------ *)
(** * More on the detector *)

Module detector_more.
Import yolo_detector detector_props more_props detector_facts.

(** ** The text before the last comma *)

Lemma split_nonempty sep s : Py.split sep s <> [].
Proof.
  destruct s as [|c r]; simpl; [discriminate|].
  destruct (Ascii.eqb c sep); [discriminate|].
  destruct (Py.split sep r); discriminate.
Qed.

(** [(h + sep + p).split(sep) == h.split(sep) + p.split(sep)] *)
Lemma split_app sep h p :
  Py.split sep (h ++ String sep p) = Py.split sep h ++ Py.split sep p.
Proof.
  induction h as [|c h IH]; simpl.
  - now rewrite Ascii.eqb_refl.
  - destruct (Ascii.eqb c sep); [now rewrite IH|].
    rewrite IH. destruct (Py.split sep h) as [|x l] eqn:E.
    + now apply split_nonempty in E.
    + reflexivity.
Qed.

Lemma split_comma_free s : comma_free s = true -> Py.split "," s = [s].
Proof.
  induction s as [|c r IH]; simpl; [reflexivity|].
  intros E. apply andb_true_iff in E. destruct E as [Ec Er].
  apply negb_true_iff in Ec. rewrite Ec, (IH Er). reflexivity.
Qed.

Lemma last_app_nonempty {A} (l1 l2 : list A) d :
  l2 <> [] -> last (l1 ++ l2) d = last l2 d.
Proof.
  intros Hl2. induction l1 as [|x l1 IH]; [reflexivity|].
  simpl. destruct (l1 ++ l2) eqn:E; [|exact IH].
  apply app_eq_nil in E. tauto.
Qed.

Lemma last_segment header payload :
  comma_free payload = true ->
  last (Py.split "," (header ++ String "," payload)) EmptyString = payload.
Proof.
  intros Hp. rewrite split_app, last_app_nonempty by apply split_nonempty.
  now rewrite split_comma_free.
Qed.

Section Facts.
Context {F : Type} `{PyFloat F}.
Variable rt : Runtime F.

(** ** One detection per box *)

Lemma detection_of_fields self im b d :
  detection_of self im b = Py.Ok d ->
  class_id d = cls b /\ confidence d = conf b.
Proof.
  unfold detection_of.
  destruct (xyxy b) as [[[bx1 by1] bx2] by2]. destruct (size im) as [w h].
  intros E. apply bind_ok in E. destruct E as (name & _ & E).
  injection E as <-. now simpl.
Qed.

Lemma detect_loop_fields self im bs : forall acc ds,
  detect_loop self im bs acc = Py.Ok ds ->
  map (@class_id F) ds = map (@class_id F) acc ++ map (@cls F) bs /\
  map (@confidence F) ds = map (@confidence F) acc ++ map (@conf F) bs.
Proof.
  induction bs as [|b bs IH]; simpl; intros acc ds E.
  - injection E as <-. now rewrite !app_nil_r.
  - apply bind_ok in E. destruct E as (d & Ed & E).
    apply IH in E. destruct E as [E1 E2].
    destruct (detection_of_fields _ _ _ _ Ed) as [Hc Hf].
    rewrite E1, E2, !map_app, <- !app_assoc. simpl. now rewrite Hc, Hf.
Qed.

End Facts.

(** X1: what comes before the last comma of a string argument is dropped:
    for a payload without a comma, [detect_objects] gives for
    [header + "," + payload] what it gives for the payload alone. *)
Theorem detect_objects_ignores_header
    {F : Type} `{PyFloat F} (rt : Runtime F) self header payload t0 t1 :
  comma_free payload = true ->
  detect_objects rt self (Str (header ++ String "," payload)) t0 t1
  = detect_objects rt self (Str payload) t0 t1.
Proof.
  intros Hp. unfold detect_objects.
  rewrite (last_segment header payload Hp).
  now rewrite (split_comma_free payload Hp).
Qed.

(** X2: [image_to_base64] followed by [detect_objects]: when the encoder's
    base64 text holds no comma, the detector decodes exactly that text,
    the [data:image/jpeg;base64,] prefix being dropped. *)
Theorem detect_objects_of_image_to_base64
    {F : Type} `{PyFloat F} (rt : Runtime F) self (e : test_detector.Encoder)
    image t0 t1 :
  (forall bytes, comma_free (test_detector.b64encode e bytes) = true) ->
  exists img_str,
    test_detector.image_to_base64 e image
      = ("data:image/jpeg;base64," ++ img_str)%string /\
    last (Py.split "," (test_detector.image_to_base64 e image)) EmptyString
      = img_str /\
    detect_objects rt self (Str (test_detector.image_to_base64 e image)) t0 t1
      = detect_objects rt self (Str img_str) t0 t1.
Proof.
  intros Hb. unfold test_detector.image_to_base64.
  eexists. split; [reflexivity|].
  split.
  - apply (last_segment "data:image/jpeg;base64"). apply Hb.
  - apply (detect_objects_ignores_header rt self "data:image/jpeg;base64").
    apply Hb.
Qed.

(** X3: a result has one detection for each box the model reported, in the
    model's order, with the box's class id and confidence; with no result
    or no boxes from the model the detections are empty. *)
Theorem detect_objects_one_per_box
    {F : Type} `{PyFloat F} (rt : Runtime F) self image t0 t1 r :
  detect_objects rt self image t0 t1 = Py.Ok r ->
  exists im results,
    model rt im (conf_threshold self) = Py.Ok results /\
    map (@class_id F) (detections r) = map (@cls F) (reported results) /\
    map (@confidence F) (detections r) = map (@conf F) (reported results) /\
    detection_count r = Z.of_nat (List.length (reported results)).
Proof.
  intros E.
  destruct (detect_objects_ok rt _ _ _ _ _ E)
    as (im0 & im & results & ds & _ & Em & Eds & ->).
  exists im, results. simpl. split; [exact Em|].
  assert (Hf : map (@class_id F) ds = map (@cls F) (reported results) /\
               map (@confidence F) ds = map (@conf F) (reported results)).
  { unfold reported. destruct results as [|r0 rest]; [injection Eds as <-; now simpl|].
    destruct (boxes r0) as [bs|]; [|injection Eds as <-; now simpl].
    exact (detect_loop_fields _ _ _ _ _ Eds). }
  destruct Hf as [Hc Hf]. repeat split; auto.
  rewrite <- (length_map (@class_id F) ds), Hc, length_map. reflexivity.
Qed.

(** X4: a box whose class id is not negative always gives a detection: it
    is named by the entry of [class_names] at that index when there is
    one, and [class_<id>] otherwise. *)
Theorem detection_of_class_name
    {F : Type} `{PyFloat F} (self : YOLODetector F) im (b : Box F) :
  0 <= cls b ->
  exists d,
    detection_of self im b = Py.Ok d /\
    class_id d = cls b /\
    class_name d =
      if cls b <? Z.of_nat (List.length (class_names self))
      then nth (Z.to_nat (cls b)) (class_names self) EmptyString
      else ("class_" ++ Py.str_of_int (cls b))%string.
Proof.
  intros Hc. unfold detection_of.
  destruct (xyxy b) as [[[bx1 by1] bx2] by2]. destruct (size im) as [w h].
  destruct (cls b <? Z.of_nat (List.length (class_names self))) eqn:El.
  - apply Z.ltb_lt in El. unfold Py.getitem. cbv zeta.
    assert (E0 : (cls b <? 0) = false) by (apply Z.ltb_ge; lia).
    assert (E1 : (Z.of_nat (List.length (class_names self)) <=? cls b) = false)
      by (apply Z.leb_gt; lia).
    rewrite E0, E0, E1. cbn [orb].
    destruct (nth_error (class_names self) (Z.to_nat (cls b))) as [name|] eqn:En.
    + simpl. eexists. split; [reflexivity|]. simpl. split; [reflexivity|].
      symmetry. now apply nth_error_nth.
    + apply nth_error_None in En. lia.
  - simpl. eexists. split; [reflexivity|]. now simpl.
Qed.

(** X5: Python's negative indexing reaches [class_names] from the end, and
    below [-len(class_names)] the lookup raises: [detect_objects] returns
    a result only if every reported class id is at least
    [-len(class_names)]. *)
Theorem detect_objects_class_id_floor
    {F : Type} `{PyFloat F} (rt : Runtime F) self image t0 t1 r d :
  detect_objects rt self image t0 t1 = Py.Ok r ->
  In d (detections r) ->
  - Z.of_nat (List.length (class_names self)) <= class_id d /\
  (class_id d < 0 ->
   nth_error (class_names self)
     (Z.to_nat (Z.of_nat (List.length (class_names self)) + class_id d))
   = Some (class_name d)).
Proof.
  intros E Hd.
  destruct (detect_objects_ok rt _ _ _ _ _ E)
    as (im0 & im & results & ds & _ & _ & Eds & ->).
  simpl in Hd.
  destruct results as [|r0 rest]; [injection Eds as <-; destruct Hd|].
  destruct (boxes r0) as [bs|]; [|injection Eds as <-; destruct Hd].
  destruct (detect_loop_In _ _ _ _ _ _ Eds Hd) as [[] | (b & _ & Ed)].
  clear - Ed. unfold detection_of in Ed.
  destruct (xyxy b) as [[[bx1 by1] bx2] by2]. destruct (size im) as [w h].
  apply bind_ok in Ed. destruct Ed as (name & En & Ed).
  injection Ed as <-. simpl.
  set (n := Z.of_nat (List.length (class_names self))) in *.
  assert (0 <= n) by (subst n; lia).
  destruct (cls b <? n) eqn:El.
  - apply Z.ltb_lt in El. unfold Py.getitem in En. cbv zeta in En. fold n in En.
    destruct (cls b <? 0) eqn:E0.
    + apply Z.ltb_lt in E0.
      destruct ((n + cls b <? 0) || (n <=? n + cls b)) eqn:Eo; [discriminate|].
      apply orb_false_iff in Eo. destruct Eo as [Eo _]. apply Z.ltb_ge in Eo.
      split; [lia|]. intros _.
      destruct (nth_error (class_names self) (Z.to_nat (n + cls b)));
        [now injection En as <- | discriminate].
    + apply Z.ltb_ge in E0. split; lia.
  - apply Z.ltb_ge in El. split; lia.
Qed.

(** X6: the [image_size] of a result is the detector's [target_size], not
    the size of the image sent, as long as PIL's resize returns the size
    it is asked for. *)
Theorem detect_objects_image_size
    {F : Type} `{PyFloat F} (rt : Runtime F) self image t0 t1 r :
  resize_exact rt ->
  detect_objects rt self image t0 t1 = Py.Ok r ->
  image_size r = target_size self.
Proof.
  intros Hr E.
  destruct (detect_objects_ok rt _ _ _ _ _ E)
    as (im0 & im & results & ds & Er & _ & _ & ->).
  simpl. rewrite (Hr _ _ _ Er). now destruct (target_size self).
Qed.

(** X30: a string, an array and a PIL image that stand for the same
    picture give the same result: the string and the array are turned into
    the image first, and the array's colours are converted once. *)
Theorem detect_objects_same_picture
    {F : Type} `{PyFloat F} (rt : Runtime F) self s bytes a a' im t0 t1 :
  b64decode rt (last (Py.split "," s) EmptyString) = Py.Ok bytes ->
  Image_open rt bytes = Py.Ok im ->
  cvtColor_BGR2RGB rt a = Py.Ok a' ->
  Image_fromarray rt a' = Py.Ok im ->
  detect_objects rt self (Str s) t0 t1 = detect_objects rt self (Pil im) t0 t1 /\
  detect_objects rt self (Array a) t0 t1 = detect_objects rt self (Pil im) t0 t1.
Proof.
  intros Hb Ho Hc Hf. unfold detect_objects.
  rewrite Hb, Hc. simpl. rewrite Ho, Hf. split; reflexivity.
Qed.

End detector_more.

(* ------------------------------------------------------------------ *)
(** * Drawing *)

Module drawing_facts.
Import yolo_detector drawing detector_facts.

Section Facts.
Context {F : Type} `{PyFloat F} `{PyFloatDraw F}.
Variable getTextSize : string -> Z * Z * Z.



End Facts.


End drawing_facts.

(* ------------------------------------------------------------------ *)
(** * More on the socket handlers *)

Module handler_more.
Import yolo_detector detection_server server_props more_props dict_facts
  handler_facts run_facts count_facts.

Section Facts.
Context {F : Type} `{PyFloat F}.
Implicit Types (st : State F) (d : Py.dict (SessionInfo F)).

Lemma length_del k d :
  Py.mem k d = true -> (List.length (Py.del k d) + 1 = List.length d)%nat.
Proof.
  unfold Py.mem. induction d as [|[k' v'] d IH]; simpl; [discriminate|].
  destruct (String.eqb k k'); simpl; [lia|].
  intros Hm. rewrite <- (IH Hm). lia.
Qed.

Lemma set_absent k (v : SessionInfo F) d :
  Py.mem k d = false -> Py.set k v d = d ++ [(k, v)].
Proof.
  unfold Py.mem. induction d as [|[k' v'] d IH]; simpl; [reflexivity|].
  destruct (String.eqb k k'); [discriminate|].
  intros Hm. now rewrite IH.
Qed.

Lemma del_app_absent k (v : SessionInfo F) d :
  Py.get k d = None -> Py.del k (d ++ [(k, v)]) = d.
Proof.
  induction d as [|[k' v'] d IH]; simpl.
  - now rewrite String.eqb_refl.
  - destruct (String.eqb k k'); [discriminate|].
    intros Hg. now rewrite IH.
Qed.

Lemma In_set k (v : SessionInfo F) d k' v' :
  NoDup (Py.keys d) ->
  In (k', v') (Py.set k v d) ->
  (k' = k /\ v' = v) \/ (In (k', v') d /\ k' <> k).
Proof.
  induction d as [|[k0 v0] d IH]; simpl; intros Hnd.
  - intros [E|[]]. injection E as <- <-. now left.
  - inversion Hnd as [|? ? Hnotin Hnd']; subst.
    destruct (String.eqb_spec k k0) as [<-|Hne]; simpl.
    + intros [E|Hin]; [injection E as <- <-; now left|].
      right. split; [now right|].
      intros ->. apply Hnotin.
      change (In (fst (k, v')) (map fst d)). now apply in_map.
    + intros [E|Hin].
      * injection E as <- <-. right. split; [now left | congruence].
      * destruct (IH Hnd' Hin) as [?|[? ?]]; [now left | right; auto].
Qed.

Lemma session_of_sid_app sid0 d l :
  (forall k info, In (k, info) d -> sid info <> sid0) ->
  session_of_sid sid0 (d ++ l) = session_of_sid sid0 l.
Proof.
  induction d as [|[k info] d IH]; simpl; intros Hn; [reflexivity|].
  destruct (String.eqb_spec (sid info) sid0) as [E|_].
  - exfalso. exact (Hn k info (or_introl eq_refl) E).
  - apply IH. intros k' info' Hin. apply (Hn k' info'). now right.
Qed.

Lemma session_of_sid_None sid0 d :
  (forall k info, In (k, info) d -> sid info <> sid0) ->
  session_of_sid sid0 d = None.
Proof.
  intros Hn. destruct (session_of_sid sid0 d) as [k|] eqn:E; [|reflexivity].
  destruct (session_of_sid_In sid0 d k E) as (info & Hin & Hs).
  now apply Hn in Hin.
Qed.

End Facts.

(** X8: [disconnect] removes one session at most: the first in joining
    order that the closing connection owns.  That session is gone, every
    other session keeps its entry (any further session of the same
    connection too), nothing is sent, and the queue and the worker are
    left alone. *)
Theorem disconnect_removes_first_session
    {F : Type} `{PyFloat F} (st : State F) sid0 s :
  registry_ok st ->
  session_of_sid sid0 (active_sessions st) = Some s -> s <> EmptyString ->
  let st' := fst (disconnect sid0 st) in
  snd (disconnect sid0 st) = [] /\
  Py.get s (active_sessions st') = None /\
  (forall k, k <> s ->
     Py.get k (active_sessions st') = Py.get k (active_sessions st)) /\
  (List.length (active_sessions st') + 1 = List.length (active_sessions st))%nat /\
  detection_queue st' = detection_queue st /\
  worker st' = worker st.
Proof.
  intros Hreg Hs Hs0 st'. subst st'. unfold disconnect.
  rewrite Hs, (falsy_some _ Hs0). simpl.
  split; [reflexivity|].
  split; [now apply get_del_same|].
  split; [intros k Hk; apply get_del_other; congruence|].
  split; [|split; reflexivity].
  apply length_del.
  destruct (session_of_sid_In sid0 _ s Hs) as (info & Hin & _).
  unfold Py.mem. now rewrite (In_get _ _ _ _ Hreg Hin).
Qed.

(** X9: the [disconnect] of a connection that owns no session changes
    nothing and sends nothing. *)
Theorem disconnect_stranger
    {F : Type} `{PyFloat F} (st : State F) sid0 :
  (forall k info, In (k, info) (active_sessions st) -> sid info <> sid0) ->
  disconnect sid0 st = (st, []).
Proof.
  intros Hn. unfold disconnect. now rewrite (session_of_sid_None sid0 _ Hn).
Qed.

(** X10: a join under a [session_id] that is not registered adds it last
    in the registry with [frame_count = 0] and the joining connection as
    owner, leaves every other entry and the queue as they were, enters
    the connection in the session's room and acknowledges to the caller
    with the fixed detector settings. *)
Theorem join_new_session
    {F : Type} `{PyFloat F} (st : State F) sid0 data now s :
  d_session_id data = Some s -> s <> EmptyString ->
  Py.mem s (active_sessions st) = false ->
  let st' := fst (join_detection_session sid0 data now st) in
  Py.keys (active_sessions st') = Py.keys (active_sessions st) ++ [s] /\
  Py.get s (active_sessions st')
    = Some {| sid := sid0; joined_at := now;
              frame_count := 0; last_detection := None |} /\
  (forall k, k <> s ->
     Py.get k (active_sessions st') = Py.get k (active_sessions st)) /\
  detection_queue st' = detection_queue st /\
  snd (join_detection_session sid0 data now st)
    = [ OEnterRoom sid0 s;
        OEmit {| event := "joined_session";
                 payload := Joined s "ready"
                              {| i_model := "YOLOv5n";
                                 i_target_size := (320, 240);
                                 i_target_fps := 15;
                                 i_conf_threshold := flit (25 # 100)%Q |};
                 room := sid0 |} ].
Proof.
  intros Hs Hs0 Hm st'. subst st'. unfold join_detection_session.
  rewrite Hs, (falsy_some _ Hs0). simpl.
  split; [now apply keys_set_absent|].
  split; [apply get_set_same|].
  split; [intros k Hk; apply get_set_other; congruence|].
  split; reflexivity.
Qed.

(** X11: a join whose payload has no [session_id], or an empty one, gets
    the error [Session ID required] and changes nothing. *)
Theorem join_without_session_id
    {F : Type} `{PyFloat F} (st : State F) sid0 data now :
  Py.falsy (d_session_id data) = true ->
  join_detection_session sid0 data now st
  = (st, [error_to sid0 "Session ID required"]).
Proof.
  intros Hf. unfold join_detection_session.
  destruct (d_session_id data) as [s|]; [|reflexivity].
  now rewrite Hf.
Qed.

(** X12: a frame for a [session_id] that is not registered gets the error
    [Session not found]; no count moves and nothing is queued. *)
Theorem process_frame_unknown_session
    {F : Type} `{PyFloat F} (st : State F) sid0 data now s image_data :
  detector st <> None ->
  f_session_id data = Some s -> s <> EmptyString ->
  f_image data = Some image_data -> image_data <> EmptyString ->
  Py.get s (active_sessions st) = None ->
  process_frame sid0 data now st = (st, [error_to sid0 "Session not found"]).
Proof.
  intros Hd Hs Hs0 Hi Hi0 Hg. unfold process_frame.
  destruct (detector st); [|congruence].
  now rewrite Hs, Hi, Hg, (falsy_some _ Hs0), (falsy_some _ Hi0).
Qed.

(** X13: a frame for a live session that finds room in the queue is put
    last in it, under the payload's timestamp or the clock reading when
    there is none; the session's [frame_count] goes up by one, the queue's
    count of unfinished tasks too, and nothing is sent to the caller. *)
Theorem process_frame_accepted
    {F : Type} `{PyFloat F} (st : State F) sid0 data now d s image_data info :
  detector st = Some d ->
  f_session_id data = Some s -> s <> EmptyString ->
  f_image data = Some image_data -> image_data <> EmptyString ->
  Py.get s (active_sessions st) = Some info ->
  qsize (detection_queue st) < maxsize ->
  let timestamp := match f_timestamp data with Some t => t | None => now end in
  let st' := fst (process_frame sid0 data now st) in
  snd (process_frame sid0 data now st) = [OPut (s, image_data, timestamp)] /\
  items (detection_queue st')
    = items (detection_queue st) ++ [(s, image_data, timestamp)] /\
  unfinished_tasks (detection_queue st')
    = unfinished_tasks (detection_queue st) + 1 /\
  option_map (@frame_count F) (Py.get s (active_sessions st'))
    = Some (frame_count info + 1) /\
  (forall k, k <> s ->
     Py.get k (active_sessions st') = Py.get k (active_sessions st)).
Proof.
  intros Hd Hs Hs0 Hi Hi0 Hg Hq timestamp st'. subst st'.
  rewrite (process_frame_live st sid0 data now _ _ _ _ Hd Hs Hs0 Hi Hi0 Hg).
  replace (qsize (detection_queue st) <? maxsize) with true
    by (symmetry; apply Z.ltb_lt; lia).
  simpl. repeat split.
  - now rewrite get_set_same.
  - intros k Hk. apply get_set_other. congruence.
Qed.

(** X14: [get_session_stats] for a [session_id] that is missing or not
    registered answers the caller with the error [Session not found] and
    changes nothing. *)
Theorem get_session_stats_unknown
    {F : Type} `{PyFloat F} (st : State F) sid0 data now :
  (forall s, d_session_id data = Some s ->
     Py.get s (active_sessions st) = None) ->
  get_session_stats sid0 data now st
  = (st, [error_to sid0 "Session not found"]).
Proof.
  intros Hn. unfold get_session_stats.
  destruct (d_session_id data) as [s|]; [|reflexivity].
  now rewrite (Hn s eq_refl).
Qed.

(** X27: a join followed by the disconnect of the same connection leaves
    the registry as it was, when the session is new and the connection
    owned none before. *)
Theorem join_then_disconnect
    {F : Type} `{PyFloat F} (st : State F) sid0 data now s :
  d_session_id data = Some s -> s <> EmptyString ->
  Py.mem s (active_sessions st) = false ->
  (forall k info, In (k, info) (active_sessions st) -> sid info <> sid0) ->
  active_sessions
    (fst (disconnect sid0 (fst (join_detection_session sid0 data now st))))
  = active_sessions st.
Proof.
  intros Hs Hs0 Hm Hn. unfold join_detection_session.
  rewrite Hs, (falsy_some _ Hs0). cbn [fst].
  unfold disconnect, set_sessions. cbn [active_sessions].
  rewrite (set_absent _ _ _ Hm), (session_of_sid_app sid0 _ _ Hn).
  cbn [session_of_sid sid]. rewrite String.eqb_refl, (falsy_some _ Hs0).
  cbn [fst active_sessions].
  apply del_app_absent. unfold Py.mem in Hm.
  destruct (Py.get s (active_sessions st)); [discriminate | reflexivity].
Qed.

(** X28: once its owner has disconnected, a session's frames are refused:
    a frame for the session that the disconnect removed gets the error
    [Session not found] and is not queued. *)
Theorem frame_after_disconnect
    {F : Type} `{PyFloat F} (st : State F) sid0 sid1 data now s image_data :
  registry_ok st -> detector st <> None ->
  session_of_sid sid0 (active_sessions st) = Some s -> s <> EmptyString ->
  f_session_id data = Some s ->
  f_image data = Some image_data -> image_data <> EmptyString ->
  process_frame sid1 data now (fst (disconnect sid0 st))
  = (fst (disconnect sid0 st), [error_to sid1 "Session not found"]).
Proof.
  intros Hreg Hd Ho Hs0 Hs Hi Hi0. unfold disconnect.
  rewrite Ho, (falsy_some _ Hs0). cbn [fst]. unfold process_frame, set_sessions.
  cbn [detector active_sessions].
  destruct (detector st); [|congruence].
  rewrite Hs, Hi, (falsy_some _ Hs0), (falsy_some _ Hi0). cbn [orb].
  now rewrite (get_del_same _ s (active_sessions st) Hreg).
Qed.

(** X29: a session joined anew from another connection survives the
    disconnect of its former owner: when the former owner has no other
    session, its disconnect changes nothing. *)
Theorem rejoined_session_survives
    {F : Type} `{PyFloat F} (st : State F) sid_old sid_new data now s :
  registry_ok st ->
  d_session_id data = Some s -> s <> EmptyString ->
  sid_new <> sid_old ->
  (forall k info, In (k, info) (active_sessions st) ->
     k <> s -> sid info <> sid_old) ->
  disconnect sid_old (fst (join_detection_session sid_new data now st))
  = (fst (join_detection_session sid_new data now st), []).
Proof.
  intros Hreg Hs Hs0 Hne Hn. unfold join_detection_session.
  rewrite Hs, (falsy_some _ Hs0). cbn [fst]. unfold disconnect, set_sessions.
  cbn [active_sessions].
  rewrite session_of_sid_None; [reflexivity|].
  intros k info Hin. apply (In_set _ _ _ _ _ Hreg) in Hin.
  destruct Hin as [[_ ->] | [Hin Hk]]; [exact Hne | exact (Hn k info Hin Hk)].
Qed.

End handler_more.

(* ------------------------------------------------------------------ *)
(** * More on runs of the service *)

Module run_more.
Import yolo_detector detection_server server_props more_props dict_facts
  handler_facts run_facts order_facts count_facts.

Section Facts.
Context {F : Type} `{PyFloat F}.
Variable rt : Runtime F.
Implicit Types (st : State F) (ev : Event F).

Local Arguments Z.of_nat : simpl never.
Local Arguments Z.add : simpl never.
Local Arguments Z.sub : simpl never.

Lemma step_queue_bound ev st :
  qsize (detection_queue st) <= maxsize ->
  qsize (detection_queue (fst (step rt ev st))) <= maxsize.
Proof.
  unfold qsize. intros Hq. destruct st as [det [its unf] sess w].
  destruct ev; simpl in *; unfold_handlers;
    unfold put_nowait, get, task_done, empty, qsize; simpl;
    repeat (break_match; simpl); arith_bools; simpl in *;
    rewrite ?length_app; simpl in *; try lia.
Qed.


Lemma step_detector ev st : detector (fst (step rt ev st)) = detector st.
Proof.
  destruct ev; simpl; unfold_handlers; repeat (break_match; simpl); auto.
Qed.

Lemma run_detector evs : forall st, detector (fst (run rt evs st)) = detector st.
Proof.
  induction evs as [|ev evs IH]; intros st; [reflexivity|].
  rewrite run_cons. simpl. now rewrite IH, step_detector.
Qed.

Lemma step_caller ev st sid0 m :
  caller ev = Some sid0 ->
  In (OEmit m) (snd (step rt ev st)) -> room m = sid0.
Proof.
  destruct ev; simpl; try discriminate; intros E; injection E as <-;
    unfold_handlers; unfold error_to;
    repeat (break_match; simpl); intros Hin;
    repeat match goal with
           | Hin : _ \/ _ |- _ => destruct Hin as [Hin|Hin]
           | Hin : False |- _ => destruct Hin
           | Hin : OEmit _ = OEmit _ |- _ => injection Hin as <-
           | Hin : _ = OEmit _ |- _ => discriminate Hin
           end; reflexivity.
Qed.

Lemma step_idle ev st :
  idle st ->
  idle (fst (step rt ev st)) /\
  puts (snd (step rt ev st)) = [] /\
  gets (snd (step rt ev st)) = [] /\
  forallb (fun m => negb (is_results m)) (emits (snd (step rt ev st))) = true.
Proof.
  unfold idle. destruct st as [det [its unf] sess w]. simpl.
  intros (-> & -> & ->).
  destruct ev; simpl; unfold_handlers; unfold get, error_to; simpl;
    repeat (break_match; simpl); auto.
Qed.

Lemma run_idle evs : forall st,
  idle st ->
  puts (snd (run rt evs st)) = [] /\
  gets (snd (run rt evs st)) = [] /\
  forallb (fun m => negb (is_results m)) (emits (snd (run rt evs st))) = true.
Proof.
  induction evs as [|ev evs IH]; intros st Hi; [now simpl|].
  rewrite run_cons. simpl.
  destruct (step_idle ev st Hi) as (Hi1 & Hp & Hg & He).
  destruct (IH _ Hi1) as (Hp' & Hg' & He').
  rewrite puts_app, gets_app, emits_app, forallb_app, Hp, Hg, He, Hp', Hg', He'.
  auto.
Qed.

(** One frame of a burst: it is queued when there is room and turned away
    otherwise, and counted either way. *)
Lemma step_burst s ev st d info :
  detector st = Some d -> s <> EmptyString ->
  Py.get s (active_sessions st) = Some info ->
  frame_for s ev = true ->
  detector (fst (step rt ev st)) = Some d /\
  Py.get s (active_sessions (fst (step rt ev st))) = Some (bump info) /\
  ((qsize (detection_queue st) < maxsize /\
    qsize (detection_queue (fst (step rt ev st))) = qsize (detection_queue st) + 1 /\
    List.length (puts (snd (step rt ev st))) = 1%nat /\
    List.length (skipped s (snd (step rt ev st))) = 0%nat)
   \/
   (maxsize <= qsize (detection_queue st) /\
    qsize (detection_queue (fst (step rt ev st))) = qsize (detection_queue st) /\
    List.length (puts (snd (step rt ev st))) = 0%nat /\
    List.length (skipped s (snd (step rt ev st))) = 1%nat)).
Proof.
  intros Hd Hs0 Hg Hev.
  destruct ev as [| | |sid0 data now| | |]; try discriminate Hev.
  simpl in Hev. apply andb_true_iff in Hev. destruct Hev as [Hes Hei].
  destruct (f_session_id data) as [s'|] eqn:Es; [|discriminate].
  apply String.eqb_eq in Hes. subst s'.
  apply negb_true_iff, falsy_false in Hei. destruct Hei as (img & Ei & Hi0).
  simpl step.
  rewrite (process_frame_live st sid0 data now d s img info Hd Es Hs0 Ei Hi0 Hg).
  destruct (qsize (detection_queue st) <? maxsize) eqn:Eq.
  - apply Z.ltb_lt in Eq. simpl.
    split; [exact Hd|]. split; [apply get_set_same|].
    left. split; [exact Eq|].
    unfold qsize. simpl. rewrite length_app. simpl.
    repeat split. lia.
  - apply Z.ltb_ge in Eq. simpl.
    split; [exact Hd|]. split; [apply get_set_same|].
    right. split; [exact Eq|].
    unfold skipped. simpl. rewrite String.eqb_refl. simpl. auto.
Qed.

(** A burst of frames for one live session, with no worker step between
    them. *)
Lemma run_burst s evs : forall st d info,
  detector st = Some d -> s <> EmptyString ->
  Py.get s (active_sessions st) = Some info ->
  forallb (frame_for s) evs = true ->
  qsize (detection_queue st) <= maxsize ->
  Z.of_nat (List.length (puts (snd (run rt evs st))))
    = Z.min (Z.of_nat (List.length evs)) (maxsize - qsize (detection_queue st)) /\
  Z.of_nat (List.length (skipped s (snd (run rt evs st))))
    = Z.of_nat (List.length evs)
      - Z.min (Z.of_nat (List.length evs)) (maxsize - qsize (detection_queue st)) /\
  option_map (@frame_count F)
    (Py.get s (active_sessions (fst (run rt evs st))))
  = Some (frame_count info + Z.of_nat (List.length evs)).
Proof.
  induction evs as [|ev evs IH]; intros st d info Hd Hs0 Hg Hf Hq.
  - simpl. rewrite Hg. simpl. repeat split; try lia. f_equal. lia.
  - simpl in Hf. apply andb_true_iff in Hf. destruct Hf as [Hev Hevs].
    destruct (step_burst s ev st d info Hd Hs0 Hg Hev) as (Hd1 & Hg1 & Hcase).
    rewrite run_cons. simpl fst. simpl snd.
    rewrite puts_app, skipped_app, !length_app, !Nat2Z.inj_add.
    assert (Hq1 : qsize (detection_queue (fst (step rt ev st))) <= maxsize)
      by (destruct Hcase as [(? & -> & _) | (? & -> & _)]; lia).
    destruct (IH _ d (bump info) Hd1 Hs0 Hg1 Hevs Hq1) as (Hp & Hk & Hc).
    rewrite Hp, Hk, Hc. simpl List.length. simpl frame_count.
    rewrite Nat2Z.inj_succ.
    destruct Hcase as [(? & -> & -> & ->) | (? & -> & -> & ->)];
      repeat split; try lia; f_equal; lia.
Qed.

End Facts.

(** X15: the queue never holds more than [maxsize = 10] jobs, whatever the
    clients and the worker do from the start of the service on. *)
Theorem queue_never_exceeds_maxsize
    {F : Type} `{PyFloat F} (rt : Runtime F) (d : option (YOLODetector F)) evs :
  0 <= qsize (detection_queue (fst (run rt evs (initial d)))) <= 10.
Proof.
  split; [unfold qsize; lia|].
  apply (run_preserves rt (fun st => qsize (detection_queue st) <= maxsize)
           (step_queue_bound rt) evs (initial d)).
  unfold qsize, maxsize. simpl. lia.
Qed.


(** X17: a socket handler sends only to the connection that called it:
    every message it emits goes to the room of the caller's own [sid]. *)
Theorem handlers_reply_to_caller_only
    {F : Type} `{PyFloat F} (rt : Runtime F) (ev : Event F) (st : State F) sid0 m :
  caller ev = Some sid0 ->
  In m (emits (snd (step rt ev st))) ->
  room m = sid0.
Proof.
  intros Hc Hin. apply in_emits in Hin.
  exact (step_caller rt ev st sid0 m Hc Hin).
Qed.

(** X18: from the start of the service on, the worker thread is never
    ended by an exception, and the queue's count of unfinished tasks never
    falls below the number of jobs that wait or that the worker holds, so
    that no [task_done] is ever one too many. *)
Theorem worker_alive_and_accounted
    {F : Type} `{PyFloat F} (rt : Runtime F) (d : option (YOLODetector F)) evs :
  let st := fst (run rt evs (initial d)) in
  worker st <> Stopped /\
  qsize (detection_queue st) + holding (worker st)
    <= unfinished_tasks (detection_queue st).
Proof.
  exact (run_preserves rt (fun st => queue_ok st) (step_queue_ok rt) evs
           (initial d) (initial_queue_ok d)).
Qed.

(** X19: without a detector nothing is ever queued, taken or published:
    from a start with [detector = None], no run puts or gets a job or
    sends a [detection_results] message. *)
Theorem no_detector_no_work
    {F : Type} `{PyFloat F} (rt : Runtime F) evs :
  let obs := snd (run rt evs (initial None)) in
  puts obs = [] /\ gets obs = [] /\
  forallb (fun m => negb (is_results m)) (emits obs) = true.
Proof.
  apply (run_idle rt evs (initial None)). repeat split.
Qed.

(** X20: a burst of [n] frames with an image for one live session, with
    no worker step in between, fills what room the queue has and no more:
    [min n (10 - qsize)] frames are queued, the others get the queue-full
    reply, and all [n] are counted in [frame_count]. *)
Theorem burst_fills_queue
    {F : Type} `{PyFloat F} (rt : Runtime F) (st : State F) evs d s info :
  detector st = Some d -> s <> EmptyString ->
  Py.get s (active_sessions st) = Some info ->
  forallb (frame_for s) evs = true ->
  qsize (detection_queue st) <= maxsize ->
  Z.of_nat (List.length (puts (snd (run rt evs st))))
    = Z.min (Z.of_nat (List.length evs)) (10 - qsize (detection_queue st)) /\
  Z.of_nat (List.length (skipped s (snd (run rt evs st))))
    = Z.of_nat (List.length evs)
      - Z.min (Z.of_nat (List.length evs)) (10 - qsize (detection_queue st)) /\
  option_map (@frame_count F)
    (Py.get s (active_sessions (fst (run rt evs st))))
  = Some (frame_count info + Z.of_nat (List.length evs)).
Proof.
  intros Hd Hs0 Hg Hf Hq.
  exact (run_burst rt s evs st d info Hd Hs0 Hg Hf Hq).
Qed.

(** X21: what [get_session_stats] reports after a run: for a session that
    no event of the run joins anew and whose owner does not disconnect, a
    stats request answers the caller with the session's [frame_count] at
    the start plus its frames queued and its frames turned away since,
    with the present size of the queue and number of sessions, and leaves
    the state as it is. *)
Theorem stats_after_run
    {F : Type} `{PyFloat F} (rt : Runtime F) (st : State F) evs s info sid0 now :
  registry_ok st -> untagged st ->
  Py.get s (active_sessions st) = Some info ->
  forallb (spares s (sid info)) evs = true ->
  let st' := fst (run rt evs st) in
  let obs := snd (run rt evs st) in
  exists info',
    Py.get s (active_sessions st') = Some info' /\
    get_session_stats sid0 {| d_session_id := Some s |} now st'
    = (st',
       [OEmit {| event := "session_stats";
                 payload := Stats
                   {| s_session_id := s;
                      s_uptime := fsub now (joined_at info');
                      s_frame_count :=
                        frame_count info
                        + Z.of_nat (List.length (for_session s (puts obs)))
                        + Z.of_nat (List.length (skipped s obs));
                      s_last_detection := last_detection info';
                      s_queue_size := qsize (detection_queue st');
                      s_active_sessions :=
                        Z.of_nat (List.length (active_sessions st')) |};
                 room := sid0 |}]).
Proof.
  intros Hreg Hunt Hg Hsp st' obs. subst st' obs.
  destruct (run_frame_count rt s evs st info Hreg Hunt Hg Hsp)
    as (info' & Hg' & _ & Hc).
  exists info'. split; [exact Hg'|].
  unfold get_session_stats. simpl. rewrite Hg', Hc. reflexivity.
Qed.

End run_more.

(* ------------------------------------------------------------------ *)
(** * Start-up and the REST routes *)

Module service_more.
Import yolo_detector detection_server server_props more_props dict_facts
  handler_facts run_facts order_facts run_more startup rest_api.

Section Facts.
Context {F : Type} `{PyFloat F}.
Variable rt : Runtime F.
Implicit Types (st : State F) (ev : Event F).

Lemma step_no_uninitialised ev st m :
  detector st <> None ->
  In (OEmit m) (snd (step rt ev st)) ->
  payload m <> Message "Detector not initialized".
Proof.
  intros Hd.
  destruct ev; simpl; unfold_handlers; unfold error_to;
    repeat (break_match; simpl); intros Hin;
    repeat match goal with
           | Hin : _ \/ _ |- _ => destruct Hin as [Hin|Hin]
           | Hin : False |- _ => destruct Hin
           | Hin : OEmit _ = OEmit _ |- _ => injection Hin as <-
           | Hin : _ = OEmit _ |- _ => discriminate Hin
           end; simpl; try discriminate; congruence.
Qed.

Lemma run_no_uninitialised evs : forall st m,
  detector st <> None ->
  In (OEmit m) (snd (run rt evs st)) ->
  payload m <> Message "Detector not initialized".
Proof.
  induction evs as [|ev evs IH]; intros st m Hd Hin; [destruct Hin|].
  rewrite run_cons in Hin. simpl in Hin. apply in_app_or in Hin.
  destruct Hin as [Hin|Hin].
  - exact (step_no_uninitialised ev st m Hd Hin).
  - apply (IH (fst (step rt ev st)) m); [|exact Hin].
    now rewrite step_detector.
Qed.

Lemma summaries_fields clock (d : Py.dict (SessionInfo F)) : forall i,
  map (@u_session_id F) (summaries clock i d) = Py.keys d /\
  map (@u_frame_count F) (summaries clock i d)
    = map (fun p => frame_count (snd p)) d /\
  List.length (summaries clock i d) = List.length d.
Proof.
  induction d as [|[k info] d IH]; intros i; simpl; [auto|].
  destruct (IH (S i)) as (-> & -> & ->). auto.
Qed.

End Facts.

Lemma main_detector {F : Type} `{PyFloat F} (h : Host) (st : State F) :
  main h = Some st -> detector st <> None.
Proof.
  unfold main, initialize_detector.
  destruct (negb (path_exists h (MODEL_PATH h))); simpl; [discriminate|].
  destruct (YOLO h (MODEL_PATH h)); simpl; [|discriminate].
  intros E. injection E as <-. discriminate.
Qed.

(** X22: the service starts only with a detector in place.  [__main__]
    goes on to serve exactly when the weights file is found, in the
    current directory first and in the parent one otherwise, and loads;
    the state it starts from then has that detector, an empty queue and no
    session.  In every other case it exits. *)
Theorem main_starts_with_detector
    {F : Type} `{PyFloat F} (h : Host) :
  match main (F := F) h with
  | Some st =>
      path_exists h (MODEL_PATH h) = true /\
      YOLO h (MODEL_PATH h) = Py.Ok tt /\
      (MODEL_PATH h = "yolov5n.pt" /\ path_exists h "yolov5n.pt" = true \/
       MODEL_PATH h = "../yolov5n.pt" /\ path_exists h "yolov5n.pt" = false) /\
      st = initial (Some (init (MODEL_PATH h) CONF_THRESHOLD TARGET_SIZE TARGET_FPS))
  | None =>
      path_exists h (MODEL_PATH h) = false \/
      exists e, YOLO h (MODEL_PATH h) = Py.Raise e
  end.
Proof.
  unfold main, initialize_detector.
  assert (Hm : MODEL_PATH h = "yolov5n.pt" /\ path_exists h "yolov5n.pt" = true \/
               MODEL_PATH h = "../yolov5n.pt" /\ path_exists h "yolov5n.pt" = false).
  { unfold MODEL_PATH. destruct (path_exists h "yolov5n.pt"); simpl; auto. }
  destruct (path_exists h (MODEL_PATH h)) eqn:Ee; simpl; [|now left].
  destruct (YOLO h (MODEL_PATH h)) as [[]|e] eqn:Ey; simpl.
  - auto.
  - right. now exists e.
Qed.

(** X23: once the service has started, no client is ever told
    [Detector not initialized]: the detector set at start-up stays in
    place through every handler call and worker step. *)
Theorem started_never_uninitialised
    {F : Type} `{PyFloat F} (rt : Runtime F) (h : Host) (st : State F) evs m :
  main h = Some st ->
  In m (emits (snd (run rt evs st))) ->
  detector (fst (run rt evs st)) = detector st /\
  detector st <> None /\
  payload m <> Message "Detector not initialized".
Proof.
  intros Hs Hin.
  pose proof (main_detector h st Hs) as Hd.
  split; [apply run_detector|]. split; [exact Hd|].
  apply in_emits in Hin. exact (run_no_uninitialised rt evs st m Hd Hin).
Qed.

(** X24: once the service has started, [/health] answers 200 in every
    state it can reach, with [detector_ready] true, the number of
    registered sessions, and a queue size between 0 and 10. *)
Theorem health_after_start
    {F : Type} `{PyFloat F} (rt : Runtime F) (h : Host) (st : State F) evs :
  main h = Some st ->
  exists sessions queue_size model_info,
    health_check (fst (run rt evs st))
    = {| body := Health "OK" true sessions queue_size model_info;
         status_code := 200 |} /\
    sessions = Z.of_nat (List.length (Py.keys (active_sessions (fst (run rt evs st))))) /\
    0 <= queue_size <= 10.
Proof.
  intros Hs. pose proof (main_detector h st Hs) as Hd.
  rewrite <- (run_detector rt evs st) in Hd.
  unfold health_check.
  destruct (detector (fst (run rt evs st))) as [d|]; [|congruence].
  do 3 eexists. split; [reflexivity|].
  split; [unfold Py.keys; now rewrite length_map|].
  split; [unfold qsize; lia|].
  apply (run_preserves rt (fun st => qsize (detection_queue st) <= maxsize)
           (step_queue_bound rt) evs st).
  unfold main in Hs. destruct (initialize_detector h) as [det ok].
  destruct ok; [|discriminate]. injection Hs as <-.
  unfold qsize, maxsize. simpl. lia.
Qed.

(** X25: [/detect] answers 200, with the result of [detect_objects] and
    the clock reading, exactly when the detector is set, the request body
    gives a non-empty [image] and the detection returns; it answers 400
    exactly when the detector is set and the image is missing or empty;
    every other case is a 500. *)
Theorem detect_objects_api_status
    {F : Type} `{PyFloat F} (rt : Runtime F) (st : State F) image t0 t1 now :
  let resp := detect_objects_api rt st image t0 t1 now in
  (status_code resp = 200 <->
     exists d s results,
       detector st = Some d /\ image = Py.Ok (Some s) /\ s <> EmptyString /\
       detect_objects rt d (Str s) t0 t1 = Py.Ok results /\
       body resp = Detected results now) /\
  (status_code resp = 400 <->
     exists image_data,
       detector st <> None /\ image = Py.Ok image_data /\
       Py.falsy image_data = true) /\
  (status_code resp = 200 \/ status_code resp = 400 \/ status_code resp = 500).
Proof.
  intros resp. subst resp. unfold detect_objects_api.
  destruct (detector st) as [d|].
  2:{ simpl. repeat split; try discriminate; auto.
      - intros (? & ? & ? & ? & _); discriminate.
      - intros (? & ? & _); congruence. }
  destruct image as [[s|]|e]; simpl.
  - destruct s as [|c s]; simpl.
    + repeat split; try discriminate; auto.
      * intros (? & ? & ? & _ & E & Hs & _). injection E as <-. congruence.
      * intros _. exists (Some EmptyString). repeat split; congruence.
    + destruct (detect_objects rt d (Str (String c s)) t0 t1) as [r|e] eqn:Ed; simpl.
      * repeat split; try discriminate; auto.
        -- intros _. exists d, (String c s), r. repeat split; auto. discriminate.
        -- intros (x & _ & E & Hf). injection E as <-. discriminate.
      * repeat split; try discriminate; auto.
        -- intros (? & ? & ? & E1 & E2 & _ & E3 & _).
           injection E1 as <-. injection E2 as <-. congruence.
        -- intros (x & _ & E & Hf). injection E as <-. discriminate.
  - repeat split; try discriminate; auto.
    + intros (? & ? & ? & _ & E & _). discriminate.
    + intros _. exists None. repeat split; congruence.
  - repeat split; try discriminate; auto.
    + intros (? & ? & ? & _ & E & _). discriminate.
    + intros (? & _ & E & _). discriminate.
Qed.

(** X26: [/sessions] lists the registry as it stands: the session ids in
    the order they joined, each with its [frame_count], and
    [total_count] their number. *)
Theorem get_active_sessions_lists_registry
    {F : Type} `{PyFloat F} (st : State F) clock :
  exists sessions total_count,
    get_active_sessions st clock
    = {| body := Sessions sessions total_count; status_code := 200 |} /\
    map (@u_session_id F) sessions = Py.keys (active_sessions st) /\
    map (@u_frame_count F) sessions
      = map (fun p => frame_count (snd p)) (active_sessions st) /\
    total_count = Z.of_nat (List.length (active_sessions st)).
Proof.
  unfold get_active_sessions.
  destruct (summaries_fields clock (active_sessions st) 0%nat) as (Hk & Hc & Hl).
  do 2 eexists. split; [reflexivity|].
  split; [exact Hk|]. split; [exact Hc|]. now rewrite Hl.
Qed.

End service_more.

(* ------------------------------------------------------------------ *)
(** * The further theorems at sample inputs *)

Module sample_more.
Import yolo_detector detection_server server_props more_props drawing
  Sample Sample2.

Lemma sample_resize_exact : resize_exact rt.
Proof.
  intros im [w h] im'. simpl.
  destruct ((0 <? w) && (0 <? h)); [|discriminate].
  intros E. now injection E as <-.
Qed.

Lemma sample_detect_last_class :
  detect_objects rt_last_class yolo (Str good_image) 1%Q 3%Q
  = Py.Ok result_last_class.
Proof. reflexivity. Qed.

Lemma st_two_sessions_registry_ok : registry_ok st_two_sessions.
Proof.
  unfold registry_ok. simpl. repeat constructor; simpl; intuition discriminate.
Qed.

(** Both sessions of [st_two_sessions] belong to [sid-A]; its disconnect
    removes [s1] and leaves [s2], still owned by the closed connection. *)
Example disconnect_leaves_second_session :
  Py.keys (active_sessions (fst (disconnect "sid-A" st_two_sessions))) = ["s2"] /\
  session_of_sid "sid-A" (active_sessions (fst (disconnect "sid-A" st_two_sessions)))
  = Some "s2".
Proof. split; reflexivity. Qed.

(** The labels and the palette on two detections, one of class 0 and one
    of class [-1]. *)
Example draw_two_detections :
  drawing.draw_detections (F := Q) (fun _ => (40, 12, 3)) picture
    [detection_good; detection_last_class] true true
  = Py.Ok
      [ drawing.cv2_rectangle (0, 0) (160, 120) (0, 255, 0) 2;
        drawing.cv2_rectangle (0, -20) (40, 0) (0, 255, 0) (-1);
        drawing.cv2_putText "person (0.90)" (0, -5) (5 # 10)%Q (255, 255, 255) 1;
        drawing.cv2_rectangle (0, 0) (10, 10) (128, 128, 0) 2;
        drawing.cv2_rectangle (0, -20) (40, 0) (128, 128, 0) (-1);
        drawing.cv2_putText "toothbrush (0.50)" (0, -5) (5 # 10)%Q (255, 255, 255) 1 ].
Proof. reflexivity. Qed.

End sample_more.

Lemma detect_objects_ignores_header_witness :
  yolo_detector.detect_objects Sample.rt Sample.yolo
    (yolo_detector.Str Sample.good_image) 1%Q 3%Q
  = yolo_detector.detect_objects Sample.rt Sample.yolo
      (yolo_detector.Str "/9j/4AAQ") 1%Q 3%Q.
Proof.
  exact (detector_more.detect_objects_ignores_header Sample.rt Sample.yolo
           "data:image/jpeg;base64" "/9j/4AAQ" 1%Q 3%Q eq_refl).
Defined.

Lemma detect_objects_of_image_to_base64_witness :
  exists img_str,
    test_detector.image_to_base64 Sample2.encoder (inl Sample2.picture)
      = ("data:image/jpeg;base64," ++ img_str)%string /\
    last (Py.split "," (test_detector.image_to_base64 Sample2.encoder
                          (inl Sample2.picture))) EmptyString
      = img_str /\
    yolo_detector.detect_objects Sample.rt Sample.yolo
      (yolo_detector.Str (test_detector.image_to_base64 Sample2.encoder
                            (inl Sample2.picture))) 1%Q 3%Q
    = yolo_detector.detect_objects Sample.rt Sample.yolo
        (yolo_detector.Str img_str) 1%Q 3%Q.
Proof.
  exact (detector_more.detect_objects_of_image_to_base64 Sample.rt Sample.yolo
           Sample2.encoder (inl Sample2.picture) 1%Q 3%Q (fun _ => eq_refl)).
Defined.

Lemma detect_objects_one_per_box_witness :
  exists im results,
    yolo_detector.model Sample.rt im (yolo_detector.conf_threshold Sample.yolo)
      = Py.Ok results /\
    map (@yolo_detector.class_id Q) (yolo_detector.detections Sample.result_good)
      = map (@yolo_detector.cls Q) (more_props.reported results) /\
    map (@yolo_detector.confidence Q) (yolo_detector.detections Sample.result_good)
      = map (@yolo_detector.conf Q) (more_props.reported results) /\
    yolo_detector.detection_count Sample.result_good
      = Z.of_nat (List.length (more_props.reported results)).
Proof.
  exact (detector_more.detect_objects_one_per_box Sample.rt Sample.yolo
           (yolo_detector.Str Sample.good_image) 1%Q 3%Q Sample.result_good
           eq_refl).
Defined.

Lemma detection_of_class_name_witness :
  exists d,
    yolo_detector.detection_of Sample.yolo Sample2.picture Sample2.box_85 = Py.Ok d /\
    yolo_detector.class_id d = 85 /\
    yolo_detector.class_name d = "class_85".
Proof.
  exact (detector_more.detection_of_class_name Sample.yolo Sample2.picture
           Sample2.box_85 ltac:(vm_compute; discriminate)).
Defined.

Lemma detect_objects_class_id_floor_witness :
  -80 <= -1 /\
  (-1 < 0 -> nth_error yolo_detector.COCO 79 = Some "toothbrush").
Proof.
  exact (detector_more.detect_objects_class_id_floor Sample2.rt_last_class
           Sample.yolo (yolo_detector.Str Sample.good_image) 1%Q 3%Q
           Sample2.result_last_class Sample2.detection_last_class
           eq_refl (or_introl eq_refl)).
Defined.

Lemma detect_objects_image_size_witness :
  yolo_detector.image_size Sample.result_good = (320, 240).
Proof.
  exact (detector_more.detect_objects_image_size Sample.rt Sample.yolo
           (yolo_detector.Str Sample.good_image) 1%Q 3%Q Sample.result_good
           sample_more.sample_resize_exact eq_refl).
Defined.

Lemma disconnect_removes_first_session_witness :
  Py.get "s1" (detection_server.active_sessions
                 (fst (detection_server.disconnect "sid-A" Sample2.st_two_sessions)))
    = None /\
  Py.get "s2" (detection_server.active_sessions
                 (fst (detection_server.disconnect "sid-A" Sample2.st_two_sessions)))
    = Py.get "s2" (detection_server.active_sessions Sample2.st_two_sessions).
Proof.
  destruct (handler_more.disconnect_removes_first_session Sample2.st_two_sessions
              "sid-A" "s1" sample_more.st_two_sessions_registry_ok eq_refl
              ltac:(discriminate)) as (_ & Hgone & Hkept & _).
  split; [exact Hgone | exact (Hkept "s2" ltac:(discriminate))].
Defined.

Lemma disconnect_stranger_witness :
  detection_server.disconnect "sid-Z" Sample.st_full = (Sample.st_full, []).
Proof.
  apply (handler_more.disconnect_stranger Sample.st_full "sid-Z").
  intros k info [E|[]]. injection E as <- <-. discriminate.
Defined.

Lemma join_new_session_witness :
  Py.keys (detection_server.active_sessions
             (fst (detection_server.join_detection_session "sid-B"
                     {| detection_server.d_session_id := Some "s2" |} 200%Q
                     Sample.st_full)))
  = ["s1"; "s2"].
Proof.
  destruct (handler_more.join_new_session Sample.st_full "sid-B"
              {| detection_server.d_session_id := Some "s2" |} 200%Q "s2"
              eq_refl ltac:(discriminate) eq_refl) as (Hk & _).
  exact Hk.
Defined.

Lemma join_without_session_id_witness :
  detection_server.join_detection_session "sid-B"
    {| detection_server.d_session_id := None |} 200%Q Sample.st_full
  = (Sample.st_full, [detection_server.error_to "sid-B" "Session ID required"]).
Proof.
  exact (handler_more.join_without_session_id Sample.st_full "sid-B"
           {| detection_server.d_session_id := None |} 200%Q eq_refl).
Defined.

Lemma process_frame_unknown_session_witness :
  detection_server.process_frame "sid-A" Sample2.frame_s9 12%Q Sample.st_full
  = (Sample.st_full, [detection_server.error_to "sid-A" "Session not found"]).
Proof.
  exact (handler_more.process_frame_unknown_session Sample.st_full "sid-A"
           Sample2.frame_s9 12%Q "s9" Sample.good_image
           ltac:(discriminate) eq_refl ltac:(discriminate)
           eq_refl ltac:(discriminate) eq_refl).
Defined.

Lemma process_frame_accepted_witness :
  snd (detection_server.process_frame "sid-A" Sample.frame_s1 12%Q Sample2.st_nine)
  = [detection_server.OPut ("s1", Sample.good_image, 11%Q)].
Proof.
  destruct (handler_more.process_frame_accepted Sample2.st_nine "sid-A"
              Sample.frame_s1 12%Q Sample.yolo "s1" Sample.good_image
              Sample.session_s1
              eq_refl eq_refl ltac:(discriminate) eq_refl ltac:(discriminate)
              eq_refl ltac:(vm_compute; reflexivity)) as (Ho & _).
  exact Ho.
Defined.

Lemma get_session_stats_unknown_witness :
  detection_server.get_session_stats "sid-A"
    {| detection_server.d_session_id := Some "s9" |} 300%Q Sample.st_full
  = (Sample.st_full, [detection_server.error_to "sid-A" "Session not found"]).
Proof.
  apply (handler_more.get_session_stats_unknown Sample.st_full "sid-A"
           {| detection_server.d_session_id := Some "s9" |} 300%Q).
  intros s E. injection E as <-. reflexivity.
Defined.

Lemma handlers_reply_to_caller_only_witness :
  detection_server.room
    {| detection_server.event := "detection_results";
       detection_server.payload :=
         detection_server.Results (detection_server.queue_full_reply "s1" 11%Q);
       detection_server.room := "sid-A" |}
  = "sid-A".
Proof.
  exact (run_more.handlers_reply_to_caller_only Sample.rt
           (detection_server.Frame "sid-A" Sample.frame_s1 12%Q) Sample.st_full
           "sid-A" _ eq_refl (or_introl eq_refl)).
Defined.

Lemma burst_fills_queue_witness :
  Z.of_nat (List.length (detection_server.puts
              (snd (detection_server.run Sample.rt Sample2.burst Sample2.st_nine))))
    = 1 /\
  Z.of_nat (List.length (detection_server.skipped "s1"
              (snd (detection_server.run Sample.rt Sample2.burst Sample2.st_nine))))
    = 2 /\
  option_map (@detection_server.frame_count Q)
    (Py.get "s1" (detection_server.active_sessions
                    (fst (detection_server.run Sample.rt Sample2.burst Sample2.st_nine))))
  = Some 3.
Proof.
  exact (run_more.burst_fills_queue Sample.rt Sample2.st_nine Sample2.burst
           Sample.yolo "s1" Sample.session_s1
           eq_refl ltac:(discriminate) eq_refl eq_refl
           ltac:(vm_compute; discriminate)).
Defined.

Lemma stats_after_run_witness :
  exists info',
    Py.get "s1" (detection_server.active_sessions
                   (fst (detection_server.run Sample.rt Sample.evs_full Sample.st_full)))
      = Some info' /\
    snd (detection_server.get_session_stats "sid-A"
           {| detection_server.d_session_id := Some "s1" |} 300%Q
           (fst (detection_server.run Sample.rt Sample.evs_full Sample.st_full)))
    = [ detection_server.OEmit
          {| detection_server.event := "session_stats";
             detection_server.payload := detection_server.Stats
               {| detection_server.s_session_id := "s1";
                  detection_server.s_uptime :=
                    (300 - detection_server.joined_at info')%Q;
                  detection_server.s_frame_count := 2;
                  detection_server.s_last_detection :=
                    detection_server.last_detection info';
                  detection_server.s_queue_size := 10;
                  detection_server.s_active_sessions := 1 |};
             detection_server.room := "sid-A" |} ].
Proof.
  destruct (run_more.stats_after_run Sample.rt Sample.st_full Sample.evs_full
              "s1" Sample.session_s1 "sid-A" 300%Q
              sample_runs.st_full_registry_ok I eq_refl eq_refl)
    as (info' & Hg & Hs).
  exists info'. split; [exact Hg|]. rewrite Hs. reflexivity.
Defined.

Lemma started_never_uninitialised_witness :
  detection_server.detector
    (fst (detection_server.run Sample.rt Sample.evs_two Sample2.st_started))
  <> None.
Proof.
  destruct (service_more.started_never_uninitialised Sample.rt Sample2.host
              Sample2.st_started Sample.evs_two
              {| detection_server.event := "joined_session";
                 detection_server.payload :=
                   detection_server.Joined "s1" "ready"
                     {| detection_server.i_model := "YOLOv5n";
                        detection_server.i_target_size := (320, 240);
                        detection_server.i_target_fps := 15;
                        detection_server.i_conf_threshold := (25 # 100)%Q |};
                 detection_server.room := "sid-A" |}
              eq_refl (or_introl eq_refl)) as (Hsame & Hd & _).
  rewrite Hsame. exact Hd.
Defined.

Lemma health_after_start_witness :
  exists sessions queue_size model_info,
    rest_api.health_check
      (fst (detection_server.run Sample.rt Sample.evs_two Sample2.st_started))
    = {| rest_api.body := rest_api.Health "OK" true sessions queue_size model_info;
         rest_api.status_code := 200 |} /\
    sessions = Z.of_nat (List.length (Py.keys (detection_server.active_sessions
                 (fst (detection_server.run Sample.rt Sample.evs_two Sample2.st_started))))) /\
    0 <= queue_size <= 10.
Proof.
  exact (service_more.health_after_start Sample.rt Sample2.host
           Sample2.st_started Sample.evs_two eq_refl).
Defined.

Lemma detect_objects_same_picture_witness :
  yolo_detector.detect_objects Sample.rt Sample.yolo
    (yolo_detector.Str Sample.good_image) 1%Q 3%Q
  = yolo_detector.detect_objects Sample.rt Sample.yolo
      (yolo_detector.Pil {| yolo_detector.size := (640, 480);
                            yolo_detector.content := "/9j/4AAQ" |}) 1%Q 3%Q
  /\
  yolo_detector.detect_objects Sample.rt Sample.yolo
    (yolo_detector.Array {| yolo_detector.shape := [480; 640; 3];
                            yolo_detector.buffer := "/9j/4AAQ" |}) 1%Q 3%Q
  = yolo_detector.detect_objects Sample.rt Sample.yolo
      (yolo_detector.Pil {| yolo_detector.size := (640, 480);
                            yolo_detector.content := "/9j/4AAQ" |}) 1%Q 3%Q.
Proof.
  exact (detector_more.detect_objects_same_picture Sample.rt Sample.yolo
           Sample.good_image "/9j/4AAQ"
           {| yolo_detector.shape := [480; 640; 3];
              yolo_detector.buffer := "/9j/4AAQ" |}
           {| yolo_detector.shape := [480; 640; 3];
              yolo_detector.buffer := "/9j/4AAQ" |}
           {| yolo_detector.size := (640, 480);
              yolo_detector.content := "/9j/4AAQ" |}
           1%Q 3%Q eq_refl eq_refl eq_refl eq_refl).
Defined.

Lemma join_then_disconnect_witness :
  detection_server.active_sessions
    (fst (detection_server.disconnect "sid-B"
            (fst (detection_server.join_detection_session "sid-B"
                    {| detection_server.d_session_id := Some "s2" |} 200%Q
                    Sample.st_full))))
  = detection_server.active_sessions Sample.st_full.
Proof.
  apply (handler_more.join_then_disconnect Sample.st_full "sid-B"
           {| detection_server.d_session_id := Some "s2" |} 200%Q "s2"
           eq_refl ltac:(discriminate) eq_refl).
  intros k info [E|[]]. injection E as <- <-. discriminate.
Defined.

Lemma frame_after_disconnect_witness :
  detection_server.process_frame "sid-A" Sample.frame_s1 12%Q
    (fst (detection_server.disconnect "sid-A" Sample.st_full))
  = (fst (detection_server.disconnect "sid-A" Sample.st_full),
     [detection_server.error_to "sid-A" "Session not found"]).
Proof.
  exact (handler_more.frame_after_disconnect Sample.st_full "sid-A" "sid-A"
           Sample.frame_s1 12%Q "s1" Sample.good_image
           sample_runs.st_full_registry_ok ltac:(discriminate) eq_refl
           ltac:(discriminate) eq_refl eq_refl ltac:(discriminate)).
Defined.

Lemma rejoined_session_survives_witness :
  detection_server.disconnect "sid-A"
    (fst (detection_server.join_detection_session "sid-B"
            {| detection_server.d_session_id := Some "s1" |} 200%Q
            Sample.st_full))
  = (fst (detection_server.join_detection_session "sid-B"
            {| detection_server.d_session_id := Some "s1" |} 200%Q
            Sample.st_full), []).
Proof.
  apply (handler_more.rejoined_session_survives Sample.st_full "sid-A" "sid-B"
           {| detection_server.d_session_id := Some "s1" |} 200%Q "s1"
           sample_runs.st_full_registry_ok eq_refl
           ltac:(discriminate) ltac:(discriminate)).
  intros k info [E|[]] Hk. injection E as <- <-. congruence.
Defined.
